(** * check_genomes.py: the RefSeq complete-genome counter

    A shallow embedding of [src/check_genomes.py].  The script spawns the
    NCBI [datasets] tool, decodes the JSON it prints and turns the outcome
    into a count or into the error marker [None]; [main] maps that to the
    process exit status.

    What belongs to the interpreter's libraries and not to the script is a
    parameter of the embedding: [subprocess.run], [json.loads], the builtin
    [int] on a [str], [argparse]'s [parse_args], and what [sys.stdout]
    does with a line it cannot encode.  Everything the script itself
    decides (the order of the checks, the [try]/[except] nesting, the
    lookups with their defaults, what is printed where) is transcribed. *)

From Stdlib Require Import ZArith NArith String Ascii List SpecFloat Lia.
From stdpp Require Import base option gmap list.
Import ListNotations.

#[local] Set Warnings "-register-all".
#[local] Open Scope Z_scope.

(** ** Python text *)

(** A Python [str] is a sequence of Unicode code points. *)
Module PyStr.

Abbreviation str := (list N) (only parsing).

(** An ASCII literal of the script, as a [str]. *)
Definition lit (s : string) : str :=
  map N_of_ascii (list_ascii_of_string s).

(** [str.isspace] on one code point: the set CPython's
    [_PyUnicode_IsWhitespace] accepts, which is what [str.strip()] removes. *)
Definition isspace (c : N) : bool :=
  (((0x09 <=? c) && (c <=? 0x0D)) || ((0x1C <=? c) && (c <=? 0x20))
   || (c =? 0x85) || (c =? 0xA0) || (c =? 0x1680)
   || ((0x2000 <=? c) && (c <=? 0x200A))
   || (c =? 0x2028) || (c =? 0x2029) || (c =? 0x202F)
   || (c =? 0x205F) || (c =? 0x3000))%N.

Fixpoint lstrip (s : str) : str :=
  match s with
  | [] => []
  | c :: s' => if isspace c then lstrip s' else s
  end.

Definition rstrip (s : str) : str := rev (lstrip (rev s)).

(** [s.strip()] *)
Definition strip (s : str) : str := rstrip (lstrip s).

(** [sep.join(l)] *)
Fixpoint join (sep : str) (l : list str) : str :=
  match l with
  | [] => []
  | [x] => x
  | x :: l' => x ++ sep ++ join sep l'
  end.

(** [s == t] *)
Fixpoint eqb (s t : str) : bool :=
  match s, t with
  | [], [] => true
  | c :: s', d :: t' => (c =? d)%N && eqb s' t'
  | _, _ => false
  end.

(** Truth value of a [str]: [not s] holds of the empty one only. *)
Definition is_empty (s : str) : bool :=
  match s with [] => true | _ :: _ => false end.

End PyStr.
Export PyStr.

(** ** Values decoded from JSON *)

(** What [json.loads] can return: [None], [bool], [int], [float], [str],
    [list] and [dict] with [str] keys.  A [float] is an IEEE 754 datum. *)
Inductive value : Type :=
| JNull
| JBool (b : bool)
| JInt (z : Z)
| JFloat (f : spec_float)
| JStr (s : str)
| JList (l : list value)
| JDict (d : gmap str value).

Definition type_name (v : value) : string :=
  match v with
  | JNull => "NoneType"
  | JBool _ => "bool"
  | JInt _ => "int"
  | JFloat _ => "float"
  | JStr _ => "str"
  | JList _ => "list"
  | JDict _ => "dict"
  end.

(** [isinstance(v, int)]: [bool] is a subclass of [int]. *)
Definition isinstance_int (v : value) : bool :=
  match v with
  | JInt _ | JBool _ => true
  | _ => false
  end.

(** [v == 0] *)
Definition eq_zero (v : value) : bool :=
  match v with
  | JInt z => z =? 0
  | JBool b => negb b
  | JFloat (S754_zero _) => true
  | _ => false
  end.

(** [bool(v)], the truth value [not v] negates. *)
Definition truthy (v : value) : bool :=
  match v with
  | JNull => false
  | JBool b => b
  | JInt z => negb (z =? 0)
  | JFloat (S754_zero _) => false
  | JFloat _ => true
  | JStr s => negb (is_empty s)
  | JList l => match l with [] => false | _ :: _ => true end
  | JDict d => negb (bool_decide (d = ∅))
  end.

(** ** Exceptions *)

(** The exception classes that occur, each with its bases up to
    [Exception].  Requests to leave the interpreter ([SystemExit],
    [KeyboardInterrupt]) are not faults of a call and are not modelled. *)
Inductive exc_class : Type :=
| Exception
| ArithmeticError | OverflowError
| AttributeError
| LookupError | KeyError
| NameError | UnboundLocalError
| OSError | FileNotFoundError | PermissionError
| RuntimeError | RecursionError
| MemoryError
| TypeError
| ValueError | JSONDecodeError
| UnicodeError | UnicodeDecodeError | UnicodeEncodeError.

Definition exc_class_eqb (c d : exc_class) : bool :=
  match c, d with
  | Exception, Exception | ArithmeticError, ArithmeticError
  | OverflowError, OverflowError | AttributeError, AttributeError
  | LookupError, LookupError | KeyError, KeyError
  | NameError, NameError | UnboundLocalError, UnboundLocalError
  | OSError, OSError | FileNotFoundError, FileNotFoundError
  | PermissionError, PermissionError | RuntimeError, RuntimeError
  | RecursionError, RecursionError | MemoryError, MemoryError
  | TypeError, TypeError | ValueError, ValueError
  | JSONDecodeError, JSONDecodeError
  | UnicodeError, UnicodeError
  | UnicodeDecodeError, UnicodeDecodeError
  | UnicodeEncodeError, UnicodeEncodeError => true
  | _, _ => false
  end.

(** The method resolution order of a class, itself first. *)
Definition mro (c : exc_class) : list exc_class :=
  match c with
  | Exception => [Exception]
  | ArithmeticError => [ArithmeticError; Exception]
  | OverflowError => [OverflowError; ArithmeticError; Exception]
  | AttributeError => [AttributeError; Exception]
  | LookupError => [LookupError; Exception]
  | KeyError => [KeyError; LookupError; Exception]
  | NameError => [NameError; Exception]
  | UnboundLocalError => [UnboundLocalError; NameError; Exception]
  | OSError => [OSError; Exception]
  | FileNotFoundError => [FileNotFoundError; OSError; Exception]
  | PermissionError => [PermissionError; OSError; Exception]
  | RuntimeError => [RuntimeError; Exception]
  | RecursionError => [RecursionError; RuntimeError; Exception]
  | MemoryError => [MemoryError; Exception]
  | TypeError => [TypeError; Exception]
  | ValueError => [ValueError; Exception]
  | JSONDecodeError => [JSONDecodeError; ValueError; Exception]
  | UnicodeError => [UnicodeError; ValueError; Exception]
  | UnicodeDecodeError =>
      [UnicodeDecodeError; UnicodeError; ValueError; Exception]
  | UnicodeEncodeError =>
      [UnicodeEncodeError; UnicodeError; ValueError; Exception]
  end.

Definition issubclass (c d : exc_class) : bool :=
  existsb (exc_class_eqb d) (mro c).

(** An exception object: its class, which is all an [except] clause looks
    at, and the text [str(e)] gives. *)
Record exn : Type := { exc_type : exc_class; exc_str : str }.

Definition isinstance (e : exn) (c : exc_class) : bool :=
  issubclass (exc_type e) c.

(** The outcome of a call: a value, or an exception on its way up. *)
Inductive res (A : Type) : Type :=
| Returns (a : A)
| Raises (e : exn).
Arguments Returns {A} a.
Arguments Raises {A} e.

(** ** Builtins on values *)

(** [data.get(key, default)]: a [dict] method; any other decoded value has
    no attribute [get]. *)
Definition py_get (data : value) (key : str) (default : value) : res value :=
  match data with
  | JDict d =>
      Returns (match d !! key with Some v => v | None => default end)
  | _ =>
      Raises {| exc_type := AttributeError;
                exc_str := lit "'" ++ lit (type_name data)
                           ++ lit "' object has no attribute 'get'" |}
  end.

(** [int(f)] of a finite float: the integer part, rounding toward zero. *)
Definition trunc_finite (s : bool) (m : positive) (e : Z) : Z :=
  let q := Z.shiftl (Z.pos m) e in if s then - q else q.

Section Builtins.

(** [int(s)] for a [str]: the literal's value, or [ValueError]. *)
Variable int_of_str : str -> res Z.

(** [int(x)].  The texts of the exceptions are CPython 3.12's; the script
    looks at their classes only. *)
Definition py_int (x : value) : res value :=
  match x with
  | JInt z => Returns (JInt z)
  | JBool b => Returns (JInt (if b then 1 else 0))
  | JFloat (S754_zero _) => Returns (JInt 0)
  | JFloat (S754_finite s m e) => Returns (JInt (trunc_finite s m e))
  | JFloat (S754_infinity _) =>
      Raises {| exc_type := OverflowError;
                exc_str := lit "cannot convert float infinity to integer" |}
  | JFloat S754_nan =>
      Raises {| exc_type := ValueError;
                exc_str := lit "cannot convert float NaN to integer" |}
  | JStr s =>
      match int_of_str s with
      | Returns z => Returns (JInt z)
      | Raises e => Raises e
      end
  | JNull | JList _ | JDict _ =>
      Raises {| exc_type := TypeError;
                exc_str := lit "int() argument must be a string, a bytes-like object or a real number, not '"
                           ++ lit (type_name x) ++ lit "'" |}
  end.

End Builtins.

(** ** Output and the program monad *)

(** One piece of an f-string: literal text, or a value put through
    [format]; how a value is rendered is left to the interpreter. *)
Inductive part : Type :=
| Lit (s : string)
| Newline
| FStr (s : str)
| FInt (n : Z)
| FVal (v : value)
| FExc (e : exn).

(** A printed line. *)
Definition line : Type := list part.

(** The keyword arguments [subprocess.run] is given; [shell] is not passed
    and keeps its default. *)
Record run_args : Type := {
  args : list str;
  capture_output : bool;
  text : bool;
  check : bool;
  shell : bool
}.

(** [subprocess.CompletedProcess], captured as text. *)
Record CompletedProcess : Type := {
  returncode : Z;
  stdout : str;
  stderr : str
}.

(** What a run of the script leaves behind: the lines printed on the two
    streams and the child processes asked for, oldest first. *)
Record effects : Type := {
  sys_stdout : list line;
  sys_stderr : list line;
  spawned : list run_args
}.

Definition no_effects : effects :=
  {| sys_stdout := []; sys_stderr := []; spawned := [] |}.

Definition prog (A : Type) : Type := effects -> res A * effects.

Definition ret {A} (a : A) : prog A := fun w => (Returns a, w).

Definition raise {A} (e : exn) : prog A := fun w => (Raises e, w).

Definition lift {A} (r : res A) : prog A := fun w => (r, w).

Definition bind {A B} (m : prog A) (k : A -> prog B) : prog B :=
  fun w =>
    match m w with
    | (Returns a, w') => k a w'
    | (Raises e, w') => (Raises e, w')
    end.

Notation "x <- m ;; k" := (bind m (fun x => k))
  (at level 100, m at next level, right associativity).
Notation "m ;; k" := (bind m (fun _ => k))
  (at level 100, right associativity).

(** [print(...)] when standard output takes the line; [print_on] below is
    the general case. *)
Definition print (l : line) : prog unit :=
  fun w => (Returns tt,
            {| sys_stdout := sys_stdout w ++ [l];
               sys_stderr := sys_stderr w;
               spawned := spawned w |}).

(** [print(..., file=sys.stderr)].  Standard error escapes what its
    encoding lacks ([backslashreplace]) and so takes every line. *)
Definition eprint (l : line) : prog unit :=
  fun w => (Returns tt,
            {| sys_stdout := sys_stdout w;
               sys_stderr := sys_stderr w ++ [l];
               spawned := spawned w |}).

(** An [except] clause: the classes it names and its body. *)
Definition handler (A : Type) : Type := list exc_class * (exn -> prog A).

Definition handles {A} (e : exn) (h : handler A) : bool :=
  existsb (isinstance e) (fst h).

(** [try: body except ...]: the first clause naming a class of the
    exception runs; what that clause raises, and what no clause names, goes
    on to the enclosing [try]. *)
Definition try_except {A} (body : prog A) (handlers : list (handler A)) : prog A :=
  fun w =>
    match body w with
    | (Returns a, w') => (Returns a, w')
    | (Raises e, w') =>
        match List.find (handles e) handlers with
        | Some h => snd h e w'
        | None => (Raises e, w')
        end
    end.

(** ** The script *)

(** What [parser.parse_args()] does with the command line: it yields the
    namespace with its one positional argument, or leaves the interpreter
    on its own (usage error, [--help]). *)
Inductive parsed : Type :=
| Namespace (species_name : str)
| Exits (status : Z).

Section Script.

(** [subprocess.run]: the completed child, or the exception of a launch
    that failed. *)
Variable subprocess_run : run_args -> res CompletedProcess.

(** [json.loads] *)
Variable json_loads : str -> res value.

(** [int] on a [str] *)
Variable int_of_str : str -> res Z.

(** [argparse.ArgumentParser.parse_args] for the parser [main] builds. *)
Variable parse_args : list str -> parsed.

(** Lines 29-38: the argument vector. *)
Definition command (species_name : str) : list str :=
  [ lit "datasets";
    lit "summary";
    lit "genome";
    lit "taxon";
    species_name;
    lit "--report"; lit "counts";
    lit "--assembly-level"; lit "complete";
    lit "--assembly-source"; lit "RefSeq" ].

(** Lines 42-47: [subprocess.run(command, capture_output=True, text=True,
    check=False)]; the call is recorded, then answered. *)
Definition run_call (command : list str) : run_args :=
  {| args := command; capture_output := true; text := true;
     check := false; shell := false |}.

Definition run (command : list str) : prog CompletedProcess :=
  fun w =>
    let call := run_call command in
    (subprocess_run call,
     {| sys_stdout := sys_stdout w;
        sys_stderr := sys_stderr w;
        spawned := spawned w ++ [call] |}).

(** Reading a local variable that an earlier statement of the [try] block
    assigns: it is unbound when that statement raised. *)
Definition local (name : string) (v : option value) : prog value :=
  match v with
  | Some x => ret x
  | None =>
      raise {| exc_type := UnboundLocalError;
               exc_str := lit "cannot access local variable '" ++ lit name
                          ++ lit "' where it is not associated with a value" |}
  end.

(** Lines 68-79: the lookup of [total_count] and what is made of it. *)
Definition read_count (data : value) : prog (option value) :=
  count <- lift (py_get data (lit "total_count") (JInt 0)) ;;
  if isinstance_int count then
    ret (Some count)
  else
    eprint [Lit "Warning: 'total_count' field was not an integer. Value: ";
            FVal count] ;;
    try_except
      (n <- lift (py_int int_of_str count) ;; ret (Some n))
      [ ([ValueError; TypeError],
         fun _ =>
           eprint [Lit "Could not convert 'total_count' to integer."] ;;
           ret (Some (JInt 0))) ].

(** Lines 81-84 *)
Definition except_JSONDecodeError (result : CompletedProcess)
    : handler (option value) :=
  ([JSONDecodeError],
   fun _ =>
     eprint [Lit "Error: Failed to decode JSON output from NCBI datasets."] ;;
     eprint [Lit "Received output:"; Newline; FStr (stdout result)] ;;
     ret None).

(** Lines 85-93; [data] is the local of the [try] block, if bound. *)
Definition except_KeyError (data : option value) : handler (option value) :=
  ([KeyError],
   fun _ =>
     eprint [Lit "Error: 'total_count' key not found in NCBI datasets output."] ;;
     d <- local "data" data ;;
     eprint [Lit "Received JSON data:"; Newline; FVal d] ;;
     c <- lift (py_get d (lit "count") (JInt 0)) ;;
     zero <- (if eq_zero c then
                r <- lift (py_get d (lit "reports") JNull) ;;
                ret (negb (truthy r))
              else ret false) ;;
     if zero : bool then
       print [Lit "Interpreting lack of 'total_count' as 0 assemblies found."] ;;
       ret (Some (JInt 0))
     else
       ret None).

(** Lines 65-93: the inner [try].  Its first statement binds [data]. *)
Definition parse_output (result : CompletedProcess) : prog (option value) :=
  match json_loads (stdout result) with
  | Raises e =>
      try_except (raise e)
        [except_JSONDecodeError result; except_KeyError None]
  | Returns data =>
      try_except (read_count data)
        [except_JSONDecodeError result; except_KeyError (Some data)]
  end.

(** Lines 95-99 *)
Definition except_FileNotFoundError : handler (option value) :=
  ([FileNotFoundError],
   fun _ =>
     eprint [Lit "Error: The 'datasets' command was not found."] ;;
     eprint [Lit "Please ensure the NCBI Datasets command line tool is installed and in your PATH."] ;;
     eprint [Lit "(It should be included via the conda environment 'ncbi-datasets-cli')"] ;;
     ret None).

(** Lines 100-102 *)
Definition except_Exception : handler (option value) :=
  ([Exception],
   fun e =>
     eprint [Lit "An unexpected error occurred: "; FExc e] ;;
     ret None).

(** Lines 14-102.  The result is [None], the error marker, or [Some] of
    the object returned as the count. *)
Definition check_genome_count (species_name : str) : prog (option value) :=
  print [Lit "Checking RefSeq for complete genomes of: '";
         FStr species_name; Lit "'"] ;;
  let command := command species_name in
  try_except
    (result <- run command ;;
     if negb (returncode result =? 0) then
       eprint [Lit "Error running NCBI datasets command:"] ;;
       eprint [Lit "Command: "; FStr (join (lit " ") command)] ;;
       eprint [Lit "Return Code: "; FInt (returncode result)] ;;
       eprint [Lit "Stderr: "; FStr (strip (stderr result))] ;;
       ret None
     else if is_empty (strip (stdout result)) then
       eprint [Lit "No output received from NCBI datasets for '";
               FStr species_name;
               Lit "'. Perhaps the species name is misspelled or has no matching assemblies?"] ;;
       ret (Some (JInt 0))
     else
       parse_output result)
    [except_FileNotFoundError; except_Exception].

(** Lines 104-128.  The result is the status the process exits with. *)
Definition main (argv : list str) : prog Z :=
  match parse_args argv with
  | Exits status => ret status
  | Namespace species_name =>
      genome_count <- check_genome_count species_name ;;
      match genome_count with
      | Some n =>
          print [Lit "Found "; FVal n;
                 Lit " complete RefSeq genome(s) for '";
                 FStr species_name; Lit "'."] ;;
          ret 0
      | None =>
          print [Lit "Failed to retrieve genome count for '";
                 FStr species_name; Lit "'."] ;;
          ret 1
      end
  end.

End Script.

(** ** The script and a standard output that refuses text *)

(** [sys.stdout] encodes with [errors='strict']: [print] raises, and
    writes nothing, when the line holds a character the encoding lacks (a
    lone surrogate from an undecodable command-line byte, under UTF-8).
    The definitions of the section above are the script when standard
    output takes every line; here the stream is a parameter too.  Only the
    definitions that print on standard output differ. *)
Section Strict.

(** What writing a line to [sys.stdout] raises, if anything. *)
Variable stdout_fault : line -> option exn.

Variable subprocess_run : run_args -> res CompletedProcess.
Variable json_loads : str -> res value.
Variable int_of_str : str -> res Z.
Variable parse_args : list str -> parsed.

(** [print(...)] *)
Definition print_on (l : line) : prog unit :=
  fun w =>
    match stdout_fault l with
    | Some e => (Raises e, w)
    | None => print l w
    end.

(** Lines 85-93 *)
Definition except_KeyError_on (data : option value)
    : handler (option value) :=
  ([KeyError],
   fun _ =>
     eprint [Lit "Error: 'total_count' key not found in NCBI datasets output."] ;;
     d <- local "data" data ;;
     eprint [Lit "Received JSON data:"; Newline; FVal d] ;;
     c <- lift (py_get d (lit "count") (JInt 0)) ;;
     zero <- (if eq_zero c then
                r <- lift (py_get d (lit "reports") JNull) ;;
                ret (negb (truthy r))
              else ret false) ;;
     if zero : bool then
       print_on [Lit "Interpreting lack of 'total_count' as 0 assemblies found."] ;;
       ret (Some (JInt 0))
     else
       ret None).

(** Lines 65-93 *)
Definition parse_output_on (result : CompletedProcess)
    : prog (option value) :=
  match json_loads (stdout result) with
  | Raises e =>
      try_except (raise e)
        [except_JSONDecodeError result; except_KeyError_on None]
  | Returns data =>
      try_except (read_count int_of_str data)
        [except_JSONDecodeError result; except_KeyError_on (Some data)]
  end.

(** Lines 41-93: the body of the outer [try]. *)
Definition try_block_on (species_name : str) : prog (option value) :=
  let command := command species_name in
  result <- run subprocess_run command ;;
  if negb (returncode result =? 0) then
    eprint [Lit "Error running NCBI datasets command:"] ;;
    eprint [Lit "Command: "; FStr (join (lit " ") command)] ;;
    eprint [Lit "Return Code: "; FInt (returncode result)] ;;
    eprint [Lit "Stderr: "; FStr (strip (stderr result))] ;;
    ret None
  else if is_empty (strip (stdout result)) then
    eprint [Lit "No output received from NCBI datasets for '";
            FStr species_name;
            Lit "'. Perhaps the species name is misspelled or has no matching assemblies?"] ;;
    ret (Some (JInt 0))
  else
    parse_output_on result.

(** Lines 14-102: the announcement on line 27 comes before the [try]. *)
Definition check_genome_count_on (species_name : str)
    : prog (option value) :=
  print_on [Lit "Checking RefSeq for complete genomes of: '";
            FStr species_name; Lit "'"] ;;
  try_except (try_block_on species_name)
    [except_FileNotFoundError; except_Exception].

(** Lines 104-128: no [try] around the query or the two prints. *)
Definition main_on (argv : list str) : prog Z :=
  match parse_args argv with
  | Exits status => ret status
  | Namespace species_name =>
      genome_count <- check_genome_count_on species_name ;;
      match genome_count with
      | Some n =>
          print_on [Lit "Found "; FVal n;
                    Lit " complete RefSeq genome(s) for '";
                    FStr species_name; Lit "'."] ;;
          ret 0
      | None =>
          print_on [Lit "Failed to retrieve genome count for '";
                    FStr species_name; Lit "'."] ;;
          ret 1
      end
  end.

End Strict.

(** ** Sample collaborators *)

(** Stand-ins for the library calls on the texts the examples below use:
    the tool's behaviour is chosen per example, and the decoders answer on
    the listed texts as the interpreter's do. *)
Module Sample.

(** A text written with apostrophes where JSON has double quotes. *)
Definition jtext (s : string) : str :=
  map (fun a => if Ascii.eqb a "'"%char then 0x22%N else N_of_ascii a)
      (list_ascii_of_string s).

(** 2.5 as a binary64: 5629499534213120 * 2^-51. *)
Definition two_and_a_half : spec_float :=
  S754_finite false 5629499534213120 (-51).

Definition documents : list (str * value) :=
  [ (jtext "{'total_count': 5}", JDict {[ lit "total_count" := JInt 5 ]});
    (jtext "{'total_count': 1523}", JDict {[ lit "total_count" := JInt 1523 ]});
    (jtext "{'total_count': -5}", JDict {[ lit "total_count" := JInt (-5) ]});
    (jtext "{'total_count': '5'}", JDict {[ lit "total_count" := JStr (lit "5") ]});
    (jtext "{'total_count': 'abc'}", JDict {[ lit "total_count" := JStr (lit "abc") ]});
    (jtext "{'total_count': 2.5}", JDict {[ lit "total_count" := JFloat two_and_a_half ]});
    (jtext "{'total_count': Infinity}",
     JDict {[ lit "total_count" := JFloat (S754_infinity false) ]});
    (jtext "{'total_count': 1e999}",
     JDict {[ lit "total_count" := JFloat (S754_infinity false) ]});
    (jtext "{'total_count': null}", JDict {[ lit "total_count" := JNull ]});
    (jtext "{'total_count': true}", JDict {[ lit "total_count" := JBool true ]});
    (jtext "{'count': 0}", JDict {[ lit "count" := JInt 0 ]});
    (jtext "{'count': 3, 'reports': [1]}",
     JDict (<[ lit "count" := JInt 3 ]> {[ lit "reports" := JList [JInt 1] ]}));
    (jtext "{}", JDict ∅);
    (jtext "[1, 2]", JList [JInt 1; JInt 2]);
    (jtext "7", JInt 7);
    (jtext "'x'", JStr (lit "x")) ].

(** [json.loads] on the documents above; any other text used below is no
    JSON document. *)
Definition loads (s : str) : res value :=
  match List.find (fun d => PyStr.eqb s (fst d)) documents with
  | Some d => Returns (snd d)
  | None => Raises {| exc_type := JSONDecodeError;
                      exc_str := lit "Expecting value" |}
  end.

Definition literals : list (str * Z) :=
  [ (lit "5", 5); (lit "1523", 1523); (lit "-5", -5) ].

(** [int] on the literals above; any other text used below is no integer
    literal. *)
Definition int_literal (s : str) : res Z :=
  match List.find (fun d => PyStr.eqb s (fst d)) literals with
  | Some d => Returns (snd d)
  | None => Raises {| exc_type := ValueError;
                      exc_str := lit "invalid literal for int() with base 10" |}
  end.

(** The tool ran to the end. *)
Definition tool_exits (status : Z) (out err : str)
    : run_args -> res CompletedProcess :=
  fun _ => Returns {| returncode := status; stdout := out; stderr := err |}.

(** The tool is not on the search path. *)
Definition tool_missing : run_args -> res CompletedProcess :=
  fun _ => Raises {| exc_type := FileNotFoundError;
                     exc_str := lit "[Errno 2] No such file or directory: 'datasets'" |}.


(** The one argument of the command line is the species name. *)
Definition one_positional (argv : list str) : parsed :=
  match argv with
  | [species_name] => Namespace species_name
  | _ => Exits 2
  end.

Definition ecoli : str := lit "Escherichia coli".

(** The query for E. coli when the tool exits with 0 and prints [out]. *)
Definition query (out : str) : res (option value) * effects :=
  check_genome_count (tool_exits 0 out []) loads int_literal ecoli no_effects.

(** Two thousand lists, one in the other: deeper than the interpreter's
    recursion limit of 1000 lets [json.loads] go. *)
Definition deep_document : str :=
  repeat 0x5B%N 2000 ++ repeat 0x5D%N 2000.

(** [json.loads] as above, with the document that is too deep for it. *)
Definition loads_limited (s : str) : res value :=
  if PyStr.eqb s deep_document then
    Raises {| exc_type := RecursionError;
              exc_str := lit "maximum recursion depth exceeded while decoding a JSON array from a unicode string" |}
  else loads s.


Definition has_surrogate (s : str) : bool :=
  existsb (fun c => (0xD800 <=? c) && (c <=? 0xDFFF))%N s.

(** A UTF-8 standard output on the lines used below, whose only texts that
    may lack an encoding are the interpolated names: it refuses a line
    with a surrogate.  The text of the exception is the one for
    [surrogate_name] in the announcement. *)
Definition utf8_stdout (l : line) : option exn :=
  if existsb (fun p => match p with
                       | FStr s | FVal (JStr s) => has_surrogate s
                       | _ => false
                       end) l
  then Some {| exc_type := UnicodeEncodeError;
               exc_str := lit "'utf-8' codec can't encode character '\udce9' in position 45: surrogates not allowed" |}
  else None.

End Sample.

(** ** Properties *)

(** The effects [w] followed by more lines and calls. *)
Definition extend (w : effects) (out err : list line) (calls : list run_args)
    : effects :=
  {| sys_stdout := sys_stdout w ++ out;
     sys_stderr := sys_stderr w ++ err;
     spawned := spawned w ++ calls |}.

(** The line every query starts with. *)
Definition checking (species_name : str) : line :=
  [Lit "Checking RefSeq for complete genomes of: '"; FStr species_name; Lit "'"].

(** [quiet m]: running [m] spawns nothing. *)
Definition quiet {A} (m : prog A) : Prop :=
  forall w, spawned (snd (m w)) = spawned w.

(** [yields P m]: whenever [m] returns, what it returns satisfies [P]. *)
Definition yields {A} (P : A -> Prop) (m : prog A) : Prop :=
  forall w a w', m w = (Returns a, w') -> P a.

(** The count is the error marker, or an [int], or a [bool], which Python
    counts among the integers. *)
Definition int_or_none (r : option value) : Prop :=
  r = None \/ (exists z, r = Some (JInt z)) \/ (exists b, r = Some (JBool b)).

(** [silent m]: running [m] prints nothing on standard output. *)
Definition silent {A} (m : prog A) : Prop :=
  forall w, sys_stdout (snd (m w)) = sys_stdout w.

(** [throws P m]: whatever [m] raises satisfies [P]. *)
Definition throws {A} (P : exn -> Prop) (m : prog A) : Prop :=
  forall w e w', m w = (Raises e, w') -> P e.

(** [appends m]: running [m] keeps the lines of standard error and may add
    some. *)
Definition appends {A} (m : prog A) : Prop :=
  forall w, exists ls, sys_stderr (snd (m w)) = sys_stderr w ++ ls.

(** [speaks m]: running [m] adds at least one line to standard error. *)
Definition speaks {A} (m : prog A) : Prop :=
  forall w, exists l ls, sys_stderr (snd (m w)) = sys_stderr w ++ l :: ls.

(** [diagnosed m]: when [m] returns the error marker, it has added at least
    one line to standard error. *)
Definition diagnosed (m : prog (option value)) : Prop :=
  forall w w', m w = (Returns None, w') ->
    exists l ls, sys_stderr w' = sys_stderr w ++ l :: ls.

(** The exception is no [KeyError]. *)
Definition not_KeyError (e : exn) : Prop := isinstance e KeyError = false.

(** The line [main] ends with. *)
Definition verdict (species_name : str) (genome_count : option value) : line :=
  match genome_count with
  | Some n => [Lit "Found "; FVal n; Lit " complete RefSeq genome(s) for '";
               FStr species_name; Lit "'."]
  | None => [Lit "Failed to retrieve genome count for '";
             FStr species_name; Lit "'."]
  end.

(** *** Text *)

Lemma lstrip_nil (s : str) : lstrip s = [] <-> forallb isspace s = true.
Proof.
  induction s as [|c s IH]; simpl.
  - tauto.
  - destruct (isspace c); simpl.
    + exact IH.
    + split; discriminate.
Qed.

Lemma lstrip_head (s : str) c t : lstrip s = c :: t -> isspace c = false.
Proof.
  induction s as [|d s IH]; simpl; [discriminate|].
  destruct (isspace d) eqn:Hd; [exact IH|].
  intros [= -> _]. exact Hd.
Qed.

Lemma forallb_isspace_rev (s : str) :
  forallb isspace (rev s) = forallb isspace s.
Proof.
  induction s as [|c s IH]; simpl; [reflexivity|].
  rewrite forallb_app, IH. simpl. rewrite andb_true_r. apply andb_comm.
Qed.

(** [s.strip()] is empty exactly when [s] holds whitespace only. *)
Lemma strip_nil (s : str) : strip s = [] <-> forallb isspace s = true.
Proof.
  unfold strip, rstrip. split.
  - intros H. apply lstrip_nil.
    destruct (lstrip s) as [|c t] eqn:Hs; [reflexivity|].
    apply (f_equal (@rev N)) in H. rewrite rev_involutive in H.
    change (rev []) with (@nil N) in H.
    apply lstrip_nil in H. rewrite forallb_isspace_rev in H. simpl in H.
    rewrite (lstrip_head _ _ _ Hs) in H. discriminate.
  - intros H. apply lstrip_nil in H. rewrite H. reflexivity.
Qed.

Lemma is_empty_strip (s : str) :
  is_empty (strip s) = forallb isspace s.
Proof.
  destruct (forallb isspace s) eqn:H.
  - apply strip_nil in H. rewrite H. reflexivity.
  - destruct (strip s) eqn:Hs; [|reflexivity].
    apply strip_nil in Hs. congruence.
Qed.

(** *** Exceptions *)

(** Every class of the model derives from [Exception]. *)
Lemma issubclass_Exception (c : exc_class) : issubclass c Exception = true.
Proof. destruct c; reflexivity. Qed.

(** A [try] whose clauses cover every exception and never raise comes back
    with a value. *)
Lemma try_except_returns {A} (body : prog A) (hs : list (handler A)) w :
  (forall e, exists h, List.find (handles e) hs = Some h
               /\ forall w1, exists a w2, snd h e w1 = (Returns a, w2)) ->
  exists a w', try_except body hs w = (Returns a, w').
Proof.
  intros Hcover. unfold try_except.
  destruct (body w) as [[a|e] w1]; [eauto|].
  destruct (Hcover e) as (h & -> & Hh). apply Hh.
Qed.

(** Which clause of the outer [try] takes an exception: the first if the
    tool was not found, the catch-all otherwise. *)
Lemma outer_clause (e : exn) :
  List.find (handles e) [except_FileNotFoundError; except_Exception]
  = Some (if isinstance e FileNotFoundError
          then except_FileNotFoundError else except_Exception).
Proof.
  unfold handles, isinstance. simpl. rewrite !orb_false_r.
  destruct (issubclass (exc_type e) FileNotFoundError); [reflexivity|].
  now rewrite issubclass_Exception.
Qed.

(** *** The conversion of the count *)

(** [int(x)], when it returns, returns an [int]. *)
Lemma py_int_returns f x v : py_int f x = Returns v -> exists z, v = JInt z.
Proof.
  destruct x as [|b|z|fl|s|l|d]; simpl; try discriminate.
  - intros [= <-]. eauto.
  - intros [= <-]. eauto.
  - destruct fl; intros [= <-]; eauto.
  - destruct (f s); intros [= <-]; eauto.
Qed.

(** *** Child processes *)

Lemma quiet_ret {A} (a : A) : quiet (ret a).
Proof. intros w. reflexivity. Qed.

Lemma quiet_raise {A} e : quiet (@raise A e).
Proof. intros w. reflexivity. Qed.

Lemma quiet_lift {A} (r : res A) : quiet (lift r).
Proof. intros w. reflexivity. Qed.

Lemma quiet_print l : quiet (print l).
Proof. intros w. reflexivity. Qed.

Lemma quiet_eprint l : quiet (eprint l).
Proof. intros w. reflexivity. Qed.

Lemma quiet_bind {A B} (m : prog A) (k : A -> prog B) :
  quiet m -> (forall a, quiet (k a)) -> quiet (bind m k).
Proof.
  intros Hm Hk w. unfold bind. specialize (Hm w).
  destruct (m w) as [[a|e] w1]; simpl in *.
  - now rewrite Hk.
  - exact Hm.
Qed.

(** The clauses of a [try] being quiet, it spawns what its body spawns. *)
Lemma spawned_try {A} (body : prog A) (hs : list (handler A)) w :
  Forall (fun h => forall e, quiet (snd h e)) hs ->
  spawned (snd (try_except body hs w)) = spawned (snd (body w)).
Proof.
  intros Hhs. unfold try_except.
  destruct (body w) as [[a|e] w1]; [reflexivity|].
  destruct (List.find (handles e) hs) as [h|] eqn:Hf; [|reflexivity].
  apply find_some in Hf as [Hin _].
  rewrite List.Forall_forall in Hhs. apply (Hhs h Hin e w1).
Qed.

Lemma quiet_try {A} (body : prog A) (hs : list (handler A)) :
  quiet body -> Forall (fun h => forall e, quiet (snd h e)) hs ->
  quiet (try_except body hs).
Proof. intros Hb Hhs w. rewrite spawned_try by assumption. apply Hb. Qed.

Lemma quiet_if {A} (b : bool) (m1 m2 : prog A) :
  quiet m1 -> quiet m2 -> quiet (if b then m1 else m2).
Proof. destruct b; auto. Qed.

(** *** What a computation can return *)

Lemma yields_ret {A} (P : A -> Prop) a : P a -> yields P (ret a).
Proof. intros Ha w b w' [= <- _]. exact Ha. Qed.

Lemma yields_raise {A} (P : A -> Prop) e : yields P (raise e).
Proof. intros w b w' [=]. Qed.

Lemma yields_bind {A B} (P : B -> Prop) (m : prog A) (k : A -> prog B) :
  (forall a, yields P (k a)) -> yields P (bind m k).
Proof.
  intros Hk w b w'. unfold bind.
  destruct (m w) as [[a|e] w1]; [apply Hk|discriminate].
Qed.

(** Binding the outcome of a library call: only what it returned goes on. *)
Lemma yields_lift_bind {A B} (P : B -> Prop) (r : res A) (k : A -> prog B) :
  (forall a, r = Returns a -> yields P (k a)) -> yields P (bind (lift r) k).
Proof.
  intros Hk w b w'. unfold bind, lift.
  destruct r as [a|e]; [now apply Hk|discriminate].
Qed.

Lemma yields_try {A} (P : A -> Prop) (body : prog A) (hs : list (handler A)) :
  yields P body -> Forall (fun h => forall e, yields P (snd h e)) hs ->
  yields P (try_except body hs).
Proof.
  intros Hb Hhs w a w'. unfold try_except.
  destruct (body w) as [[b|e] w1] eqn:Hbw.
  - intros [= <- _]. exact (Hb _ _ _ Hbw).
  - destruct (List.find (handles e) hs) as [h|] eqn:Hf; [|discriminate].
    apply find_some in Hf as [Hin _].
    rewrite List.Forall_forall in Hhs. apply (Hhs h Hin e).
Qed.

Lemma yields_if {A} (P : A -> Prop) (b : bool) (m1 m2 : prog A) :
  yields P m1 -> yields P m2 -> yields P (if b then m1 else m2).
Proof. destruct b; auto. Qed.

(** *** Stepping through the script *)

#[local] Arguments command : simpl never.
#[local] Arguments run_call : simpl never.
#[local] Arguments join : simpl never.
#[local] Arguments strip : simpl never.
#[local] Arguments lit : simpl never.

(** Unfold the script down to the library calls, which the hypotheses of a
    lemma then answer. *)
Ltac script :=
  unfold check_genome_count, parse_output, read_count, run, try_except,
    bind, print, eprint, ret, raise, lift.


(** Two outcomes agree once the appended lines are flattened. *)
Ltac same_effects :=
  simpl; unfold bind, print, eprint, ret, raise, lift, extend, checking; simpl;
  rewrite <- ?app_assoc, ?app_nil_r; reflexivity.

(** One goal per [except] clause. *)
Ltac each_clause :=
  repeat match goal with |- Forall _ _ => constructor end.

Ltac yields_steps :=
  repeat first
    [ apply yields_raise | apply yields_bind | apply yields_if
    | apply yields_try
    | match goal with |- Forall _ _ => constructor end
    | match goal with |- yields _ (match ?x with _ => _ end) => destruct x end
    | match goal with |- forall _, _ => intro end
    | progress simpl ].

Ltac quiet_steps :=
  repeat first
    [ apply quiet_ret | apply quiet_raise | apply quiet_lift
    | apply quiet_print | apply quiet_eprint
    | apply quiet_bind | apply quiet_if | apply quiet_try
    | match goal with |- Forall _ _ => constructor end
    | match goal with |- quiet (match ?x with _ => _ end) => destruct x end
    | match goal with |- forall _, _ => intro end
    | progress simpl ].

Section Outcomes.

Variable subprocess_run : run_args -> res CompletedProcess.
Variable json_loads : str -> res value.
Variable int_of_str : str -> res Z.
Variable parse_args : list str -> parsed.

Lemma quiet_read_count data : quiet (read_count int_of_str data).
Proof. unfold read_count. quiet_steps. Qed.

Lemma quiet_except_JSONDecodeError result e :
  quiet (snd (except_JSONDecodeError result) e).
Proof. simpl. quiet_steps. Qed.

Lemma quiet_except_KeyError data e : quiet (snd (except_KeyError data) e).
Proof. unfold except_KeyError, local. simpl. quiet_steps. Qed.

Lemma quiet_parse_output result :
  quiet (parse_output json_loads int_of_str result).
Proof.
  unfold parse_output.
  destruct (json_loads (stdout result)) as [data|e]; apply quiet_try;
    try apply quiet_raise; try apply quiet_read_count;
    each_clause; intros e';
    [ apply quiet_except_JSONDecodeError | apply quiet_except_KeyError
    | apply quiet_except_JSONDecodeError | apply quiet_except_KeyError ].
Qed.

(** The tool ran to the end: the query is the outer [try] around the three
    branches on its outcome. *)
Lemma check_completed species_name result w :
  subprocess_run (run_call (command species_name)) = Returns result ->
  check_genome_count subprocess_run json_loads int_of_str species_name w
  = try_except
      (if negb (returncode result =? 0) then
         eprint [Lit "Error running NCBI datasets command:"] ;;
         eprint [Lit "Command: ";
                 FStr (join (lit " ") (command species_name))] ;;
         eprint [Lit "Return Code: "; FInt (returncode result)] ;;
         eprint [Lit "Stderr: "; FStr (strip (stderr result))] ;;
         ret None
       else if forallb isspace (stdout result) then
         eprint [Lit "No output received from NCBI datasets for '";
                 FStr species_name;
                 Lit "'. Perhaps the species name is misspelled or has no matching assemblies?"] ;;
         ret (Some (JInt 0))
       else
         parse_output json_loads int_of_str result)
      [except_FileNotFoundError; except_Exception]
      (extend w [checking species_name] [] [run_call (command species_name)]).
Proof.
  intros Hrun.
  unfold check_genome_count, bind at 1, print.
  unfold try_except, bind at 1, run. rewrite Hrun, is_empty_strip.
  unfold extend, checking. simpl. now rewrite app_nil_r.
Qed.

(** The launch failed: the clause of the outer [try] for the exception
    runs. *)
Lemma check_launch_failed species_name e w :
  subprocess_run (run_call (command species_name)) = Raises e ->
  check_genome_count subprocess_run json_loads int_of_str species_name w
  = snd (if isinstance e FileNotFoundError
         then except_FileNotFoundError else except_Exception) e
      (extend w [checking species_name] [] [run_call (command species_name)]).
Proof.
  intros Hrun.
  unfold check_genome_count, bind at 1, print.
  unfold try_except, bind at 1, run. rewrite Hrun, outer_clause.
  unfold extend, checking. simpl. now rewrite app_nil_r.
Qed.

(** An exit status other than 0: the four lines on standard error, then
    the error marker. *)
Lemma nonzero_exit_outcome species_name result w :
  subprocess_run (run_call (command species_name)) = Returns result ->
  returncode result <> 0 ->
  check_genome_count subprocess_run json_loads int_of_str species_name w
  = (Returns None,
     extend w [checking species_name]
       [ [Lit "Error running NCBI datasets command:"];
         [Lit "Command: "; FStr (join (lit " ") (command species_name))];
         [Lit "Return Code: "; FInt (returncode result)];
         [Lit "Stderr: "; FStr (strip (stderr result))] ]
       [run_call (command species_name)]).
Proof.
  intros Hrun Hrc. rewrite (check_completed _ _ _ Hrun).
  apply Z.eqb_neq in Hrc. rewrite Hrc. script. same_effects.
Qed.

(** C5: exit status 0 and a standard output that is empty or holds
    whitespace only give the count 0, not the error marker, with the one
    advisory line on standard error that the species name may be
    misspelled or have no matching assemblies. *)
Theorem blank_output_is_zero species_name result w :
  subprocess_run (run_call (command species_name)) = Returns result ->
  returncode result = 0 ->
  forallb isspace (stdout result) = true ->
  check_genome_count subprocess_run json_loads int_of_str species_name w
  = (Returns (Some (JInt 0)),
     extend w [checking species_name]
       [ [Lit "No output received from NCBI datasets for '";
          FStr species_name;
          Lit "'. Perhaps the species name is misspelled or has no matching assemblies?"] ]
       [run_call (command species_name)]).
Proof.
  intros Hrun Hrc Hblank. rewrite (check_completed _ _ _ Hrun), Hrc, Hblank.
  script. same_effects.
Qed.

(** C7, amended: exit status 0 and a standard output that is not blank
    (neither empty nor whitespace only) on which [json.loads] raises
    [JSONDecodeError] give the error marker, and standard error shows the
    raw output. *)
Theorem undecodable_output_is_error species_name result e w :
  subprocess_run (run_call (command species_name)) = Returns result ->
  returncode result = 0 ->
  forallb isspace (stdout result) = false ->
  json_loads (stdout result) = Raises e ->
  isinstance e JSONDecodeError = true ->
  check_genome_count subprocess_run json_loads int_of_str species_name w
  = (Returns None,
     extend w [checking species_name]
       [ [Lit "Error: Failed to decode JSON output from NCBI datasets."];
         [Lit "Received output:"; Newline; FStr (stdout result)] ]
       [run_call (command species_name)]).
Proof.
  intros Hrun Hrc Hblank Hloads He.
  rewrite (check_completed _ _ _ Hrun), Hrc, Hblank.
  script. rewrite Hloads. unfold handles at 1. simpl. rewrite He. simpl.
  same_effects.
Qed.

(** C10: exit status 0 and an output that decodes to anything but an
    object (a list, a number, a string, a boolean, null): the lookup raises
    [AttributeError], which only the catch-all clause takes; the result is
    the error marker and the one line on standard error is the generic
    one. *)
Theorem non_object_document_is_error species_name result data w :
  subprocess_run (run_call (command species_name)) = Returns result ->
  returncode result = 0 ->
  forallb isspace (stdout result) = false ->
  json_loads (stdout result) = Returns data ->
  (forall d, data <> JDict d) ->
  check_genome_count subprocess_run json_loads int_of_str species_name w
  = (Returns None,
     extend w [checking species_name]
       [ [Lit "An unexpected error occurred: ";
          FExc {| exc_type := AttributeError;
                  exc_str := lit "'" ++ lit (type_name data)
                             ++ lit "' object has no attribute 'get'" |}] ]
       [run_call (command species_name)]).
Proof.
  intros Hrun Hrc Hblank Hloads Hdata.
  rewrite (check_completed _ _ _ Hrun), Hrc, Hblank.
  script. rewrite Hloads.
  destruct data as [|b|z|f|s|l|d]; try (simpl; same_effects).
  now destruct (Hdata d).
Qed.

(** C1: where the claim fails.  Exit status 0 and an output that decodes
    to an object with no [total_count]: the lookup on line 68 yields its
    default 0 and raises no [KeyError], so the clause of lines 85-93 with
    the fallback on [count] and [reports] does not run; the result is 0
    whatever those fields hold, and nothing is written to standard
    error. *)
Theorem missing_total_count_is_zero species_name result d w :
  subprocess_run (run_call (command species_name)) = Returns result ->
  returncode result = 0 ->
  forallb isspace (stdout result) = false ->
  json_loads (stdout result) = Returns (JDict d) ->
  d !! lit "total_count" = None ->
  check_genome_count subprocess_run json_loads int_of_str species_name w
  = (Returns (Some (JInt 0)),
     extend w [checking species_name] [] [run_call (command species_name)]).
Proof.
  intros Hrun Hrc Hblank Hloads Hkey.
  rewrite (check_completed _ _ _ Hrun), Hrc, Hblank.
  script. rewrite Hloads. unfold py_get. rewrite Hkey. simpl. same_effects.
Qed.

(** The query always comes back with a value: no exception leaves it. *)
Lemma check_returns species_name w :
  exists r w',
    check_genome_count subprocess_run json_loads int_of_str species_name w
    = (Returns r, w').
Proof.
  unfold check_genome_count, bind at 1, print.
  apply try_except_returns. intros e.
  rewrite outer_clause. eexists. split; [reflexivity|].
  intros w1. destruct (isinstance e FileNotFoundError); simpl; script; eauto.
Qed.

Lemma yields_read_count data :
  yields int_or_none (read_count int_of_str data).
Proof.
  unfold read_count. apply yields_bind. intros count.
  destruct (isinstance_int count) eqn:Hint.
  - apply yields_ret.
    destruct count; try discriminate; unfold int_or_none; eauto.
  - apply yields_bind. intros _. apply yields_try.
    + apply yields_lift_bind. intros n Hn. apply yields_ret.
      apply py_int_returns in Hn as [z ->]. unfold int_or_none; eauto.
    + each_clause. intros e. simpl. apply yields_bind. intros _.
      apply yields_ret. unfold int_or_none; eauto.
Qed.

Lemma yields_parse_output result :
  yields int_or_none (parse_output json_loads int_of_str result).
Proof.
  unfold parse_output.
  destruct (json_loads (stdout result)) as [data|e]; apply yields_try;
    try apply yields_raise; try apply yields_read_count;
    each_clause; intros e'; unfold local; simpl; yields_steps;
    apply yields_ret; unfold int_or_none; eauto.
Qed.

Lemma yields_check species_name :
  yields int_or_none
    (check_genome_count subprocess_run json_loads int_of_str species_name).
Proof.
  unfold check_genome_count. apply yields_bind. intros _. apply yields_try.
  - apply yields_bind. intros result.
    repeat apply yields_if; try apply yields_parse_output;
      yields_steps; apply yields_ret; unfold int_or_none; eauto.
  - each_clause; intros e; simpl; yields_steps;
      apply yields_ret; unfold int_or_none; eauto.
Qed.


(** The three ways a [total_count] that is there is turned into the
    result. *)
Section Decoded.

Variables (species_name : str) (result : CompletedProcess) (d : gmap str value).
Variables (count : value) (w : effects).
Hypothesis Hrun :
  subprocess_run (run_call (command species_name)) = Returns result.
Hypothesis Hstatus : returncode result = 0.
Hypothesis Hblank : forallb isspace (stdout result) = false.
Hypothesis Hloads : json_loads (stdout result) = Returns (JDict d).
Hypothesis Hcount : d !! lit "total_count" = Some count.

(** X7: an [int] (or [bool]) is returned as it is, and nothing is printed
    on standard error. *)
Lemma integer_total_count :
  isinstance_int count = true ->
  check_genome_count subprocess_run json_loads int_of_str species_name w
  = (Returns (Some count),
     extend w [checking species_name] [] [run_call (command species_name)]).
Proof.
  intros Hint. rewrite (check_completed _ _ _ Hrun), Hstatus, Hblank.
  script. rewrite Hloads. unfold py_get. rewrite Hcount, Hint. simpl.
  same_effects.
Qed.

(** X8: anything else is warned about and handed to [int]; what [int]
    returns is the result.  A numeric string is counted, with the warning. *)
Lemma converted_total_count n :
  isinstance_int count = false ->
  py_int int_of_str count = Returns n ->
  check_genome_count subprocess_run json_loads int_of_str species_name w
  = (Returns (Some n),
     extend w [checking species_name]
       [ [Lit "Warning: 'total_count' field was not an integer. Value: ";
          FVal count] ]
       [run_call (command species_name)]).
Proof.
  intros Hint Hn. rewrite (check_completed _ _ _ Hrun), Hstatus, Hblank.
  script. rewrite Hloads. unfold py_get. rewrite Hcount, Hint, Hn. simpl.
  same_effects.
Qed.

(** X9: when [int] raises [ValueError] or [TypeError] the result is 0,
    after a second line on standard error. *)
Lemma unconvertible_total_count e :
  isinstance_int count = false ->
  py_int int_of_str count = Raises e ->
  isinstance e ValueError || isinstance e TypeError = true ->
  check_genome_count subprocess_run json_loads int_of_str species_name w
  = (Returns (Some (JInt 0)),
     extend w [checking species_name]
       [ [Lit "Warning: 'total_count' field was not an integer. Value: ";
          FVal count];
         [Lit "Could not convert 'total_count' to integer."] ]
       [run_call (command species_name)]).
Proof.
  intros Hint Hn He. rewrite (check_completed _ _ _ Hrun), Hstatus, Hblank.
  script. rewrite Hloads. unfold py_get. rewrite Hcount, Hint, Hn.
  unfold handles at 1. simpl. rewrite orb_false_r, He. simpl. same_effects.
Qed.

End Decoded.

(** C3: where the claim fails.  Exit status 0 and an object whose
    [total_count] is an infinite float (what [json.loads] makes of
    [Infinity] or [1e999]): the value is warned about, [int] raises
    [OverflowError], which the clause for [ValueError] and [TypeError] does
    not name, and the catch-all clause turns it into the error marker; the
    count 0 is not returned. *)
Theorem infinite_total_count_is_error species_name result d s w :
  subprocess_run (run_call (command species_name)) = Returns result ->
  returncode result = 0 ->
  forallb isspace (stdout result) = false ->
  json_loads (stdout result) = Returns (JDict d) ->
  d !! lit "total_count" = Some (JFloat (S754_infinity s)) ->
  check_genome_count subprocess_run json_loads int_of_str species_name w
  = (Returns None,
     extend w [checking species_name]
       [ [Lit "Warning: 'total_count' field was not an integer. Value: ";
          FVal (JFloat (S754_infinity s))];
         [Lit "An unexpected error occurred: ";
          FExc {| exc_type := OverflowError;
                  exc_str := lit "cannot convert float infinity to integer" |}] ]
       [run_call (command species_name)]).
Proof.
  intros Hrun Hrc Hblank Hloads Hcount.
  rewrite (check_completed _ _ _ Hrun), Hrc, Hblank.
  script. rewrite Hloads. unfold py_get. rewrite Hcount. simpl.
  same_effects.
Qed.

(** C2, amended: whatever the tool and the decoders do, the query returns,
    and what it returns is the error marker or an integer object ([int],
    or [bool]); the integer may be negative, it is never fractional. *)
Theorem count_is_integer_or_none species_name w :
  exists r w',
    check_genome_count subprocess_run json_loads int_of_str species_name w
    = (Returns r, w')
    /\ (r = None \/ (exists z, r = Some (JInt z))
        \/ (exists b, r = Some (JBool b))).
Proof.
  destruct (check_returns species_name w) as (r & w' & Hr).
  exists r, w'. split; [exact Hr|].
  exact (yields_check species_name _ _ _ Hr).
Qed.

(** [main] hands the count over as the exit status. *)
Lemma main_parsed argv species_name r w w1 :
  parse_args argv = Namespace species_name ->
  check_genome_count subprocess_run json_loads int_of_str species_name w
  = (Returns r, w1) ->
  main subprocess_run json_loads int_of_str parse_args argv w
  = match r with
    | Some n =>
        (Returns 0,
         extend w1 [ [Lit "Found "; FVal n;
                      Lit " complete RefSeq genome(s) for '";
                      FStr species_name; Lit "'."] ] [] [])
    | None =>
        (Returns 1,
         extend w1 [ [Lit "Failed to retrieve genome count for '";
                      FStr species_name; Lit "'."] ] [] [])
    end.
Proof.
  intros Hparse Hcheck. unfold main. rewrite Hparse.
  unfold bind at 1. rewrite Hcheck.
  destruct r; script; unfold extend; now rewrite !app_nil_r.
Qed.

Lemma main_returns argv w :
  exists status w',
    main subprocess_run json_loads int_of_str parse_args argv w
    = (Returns status, w').
Proof.
  destruct (parse_args argv) as [species_name|status] eqn:Hparse.
  - destruct (check_returns species_name w) as (r & w1 & Hr).
    rewrite (main_parsed _ _ _ _ _ Hparse Hr). destruct r; eauto.
  - unfold main. rewrite Hparse. unfold ret. eauto.
Qed.

(** C4: once the command line is parsed, the exit status is 0 exactly when
    the query returned a count, 0 included, and 1 exactly when it returned
    the error marker; a tool that is not found gives 1. *)
Theorem exit_status_reflects_count argv species_name w :
  parse_args argv = Namespace species_name ->
  exists r w1 status w2,
    check_genome_count subprocess_run json_loads int_of_str species_name w
    = (Returns r, w1)
    /\ main subprocess_run json_loads int_of_str parse_args argv w
       = (Returns status, w2)
    /\ (status = 0 <-> exists n, r = Some n)
    /\ (status = 1 <-> r = None)
    /\ (forall e,
          subprocess_run (run_call (command species_name)) = Raises e ->
          isinstance e FileNotFoundError = true ->
          r = None /\ status = 1).
Proof.
  intros Hparse.
  destruct (check_returns species_name w) as (r & w1 & Hr).
  pose proof (main_parsed _ _ _ _ _ Hparse Hr) as Hmain.
  exists r, w1. destruct r as [n|].
  - do 2 eexists. split; [exact Hr|]. split; [exact Hmain|].
    split; [split; eauto|]. split; [split; discriminate|].
    intros e Hrun He. rewrite (check_launch_failed _ _ _ Hrun), He in Hr.
    discriminate.
  - do 2 eexists. split; [exact Hr|]. split; [exact Hmain|].
    split; [split; [discriminate|intros [n [=]]]|]. split; [split; auto|].
    auto.
Qed.

(** C8: whatever the species name, the command is the fixed eleven-token
    vector with the name, untouched, as its fifth token; a query spawns
    exactly that vector, once, as an argument list and without a shell. *)
Theorem command_single_token (species_name : str) (w : effects) :
  command species_name =
    [ lit "datasets"; lit "summary"; lit "genome"; lit "taxon"; species_name;
      lit "--report"; lit "counts"; lit "--assembly-level"; lit "complete";
      lit "--assembly-source"; lit "RefSeq" ]
  /\ length (command species_name) = 11%nat
  /\ nth_error (command species_name) 4 = Some species_name
  /\ spawned (snd (check_genome_count subprocess_run json_loads int_of_str
                     species_name w))
     = spawned w ++ [ {| args := command species_name;
                         capture_output := true; text := true;
                         check := false; shell := false |} ].
Proof.
  repeat split.
  unfold check_genome_count, bind at 1, print.
  rewrite spawned_try by (unfold except_FileNotFoundError, except_Exception;
                          quiet_steps).
  unfold bind at 1, run. fold (run_call (command species_name)).
  destruct (subprocess_run (run_call (command species_name))) as [result|e];
    [|reflexivity].
  match goal with
  | |- spawned (snd (?m ?w1)) = _ =>
      assert (Hq : quiet m)
        by (quiet_steps; apply quiet_parse_output);
      rewrite (Hq w1)
  end.
  reflexivity.
Qed.

End Outcomes.

(** C6: an exit status other than 0 gives the error marker, and standard
    error shows the command line, the exit status and the captured
    standard error (stripped).  Standard output plays no part: the outcome
    is the same for any other captured output and any other decoders. *)
Theorem nonzero_exit_is_error subprocess_run json_loads int_of_str
    species_name result w :
  subprocess_run (run_call (command species_name)) = Returns result ->
  returncode result <> 0 ->
  check_genome_count subprocess_run json_loads int_of_str species_name w
  = (Returns None,
     extend w [checking species_name]
       [ [Lit "Error running NCBI datasets command:"];
         [Lit "Command: "; FStr (join (lit " ") (command species_name))];
         [Lit "Return Code: "; FInt (returncode result)];
         [Lit "Stderr: "; FStr (strip (stderr result))] ]
       [run_call (command species_name)])
  /\ (forall subprocess_run' json_loads' int_of_str' result',
        subprocess_run' (run_call (command species_name)) = Returns result' ->
        returncode result' = returncode result ->
        stderr result' = stderr result ->
        check_genome_count subprocess_run' json_loads' int_of_str'
          species_name w
        = check_genome_count subprocess_run json_loads int_of_str
            species_name w).
Proof.
  intros Hrun Hrc. split.
  - now apply nonzero_exit_outcome.
  - intros run' loads' int' result' Hrun' Hsame_rc Hsame_err.
    rewrite (nonzero_exit_outcome run' loads' int' _ _ w Hrun')
      by congruence.
    rewrite (nonzero_exit_outcome _ json_loads int_of_str _ _ w Hrun Hrc).
    now rewrite Hsame_rc, Hsame_err.
Qed.

(** *** The examples of the specification, and where it departs *)

Import Sample.

Example count_5 :
  fst (query (jtext "{'total_count': 5}")) = Returns (Some (JInt 5)).
Proof. reflexivity. Qed.

Example count_string_5 :
  fst (query (jtext "{'total_count': '5'}")) = Returns (Some (JInt 5)).
Proof. reflexivity. Qed.

Example count_abc :
  fst (query (jtext "{'total_count': 'abc'}")) = Returns (Some (JInt 0)).
Proof. reflexivity. Qed.

Example count_null :
  fst (query (jtext "{'total_count': null}")) = Returns (Some (JInt 0)).
Proof. reflexivity. Qed.

Example count_fraction :
  fst (query (jtext "{'total_count': 2.5}")) = Returns (Some (JInt 2)).
Proof. reflexivity. Qed.

Example count_true :
  fst (query (jtext "{'total_count': true}")) = Returns (Some (JBool true)).
Proof. reflexivity. Qed.

Example count_only :
  fst (query (jtext "{'count': 0}")) = Returns (Some (JInt 0)).
Proof. reflexivity. Qed.

Example count_infinity :
  fst (query (jtext "{'total_count': Infinity}")) = Returns None.
Proof. reflexivity. Qed.

Example not_json : fst (query (lit "not json")) = Returns None.
Proof. reflexivity. Qed.

Example ecoli_1523 :
  fst (main (tool_exits 0 (jtext "{'total_count': 1523}") []) loads
         int_literal one_positional [ecoli] no_effects) = Returns 0.
Proof. reflexivity. Qed.

Example tool_missing_exits_1 :
  fst (main tool_missing loads int_literal one_positional [ecoli] no_effects)
  = Returns 1.
Proof. reflexivity. Qed.

(** With [count] 3 and a [reports] list the fallback of lines 85-93 would
    give the error marker and a line showing the document; with [count] 0
    it would print its lines.  Both outputs give the count 0 and leave
    standard error empty. *)
Lemma missing_total_count_never_error :
  (exists d,
     loads (jtext "{'count': 3, 'reports': [1]}") = Returns (JDict d)
     /\ d !! lit "total_count" = None
     /\ d !! lit "count" = Some (JInt 3)
     /\ d !! lit "reports" = Some (JList [JInt 1]))
  /\ fst (query (jtext "{'count': 3, 'reports': [1]}"))
     = Returns (Some (JInt 0))
  /\ fst (query (jtext "{'count': 3, 'reports': [1]}")) <> Returns None
  /\ sys_stderr (snd (query (jtext "{'count': 3, 'reports': [1]}"))) = []
  /\ fst (query (jtext "{'count': 0}")) = Returns (Some (JInt 0))
  /\ sys_stderr (snd (query (jtext "{'count': 0}"))) = [].
Proof.
  split.
  - eexists. split; [reflexivity|]. repeat split; reflexivity.
  - repeat split; try reflexivity. discriminate.
Qed.

(** C2 as stated fails: a negative [total_count] is returned as it is. *)
Lemma negative_count_is_returned :
  fst (query (jtext "{'total_count': -5}")) = Returns (Some (JInt (-5)))
  /\ -5 < 0.
Proof. split; [reflexivity|lia]. Qed.

(** C7 as stated fails: an output of one space is not empty and is no
    JSON document, yet the result is the count 0, not the error marker. *)
Lemma blank_output_is_not_decoded :
  lit " " <> []
  /\ (exists e, loads (lit " ") = Raises e
                /\ isinstance e JSONDecodeError = true)
  /\ fst (query (lit " ")) = Returns (Some (JInt 0))
  /\ fst (query (lit " ")) <> Returns None.
Proof.
  split; [discriminate|]. split.
  - eexists. split; reflexivity.
  - split; [reflexivity|discriminate].
Qed.

(** *** The lemmas above at sample inputs *)

Lemma infinite_total_count_is_error_witness :
  loads (jtext "{'total_count': 1e999}")
  = Returns (JDict {[ lit "total_count" := JFloat (S754_infinity false) ]})
  /\ query (jtext "{'total_count': 1e999}")
     = (Returns None,
        extend no_effects [checking ecoli]
          [ [Lit "Warning: 'total_count' field was not an integer. Value: ";
             FVal (JFloat (S754_infinity false))];
            [Lit "An unexpected error occurred: ";
             FExc {| exc_type := OverflowError;
                     exc_str := lit "cannot convert float infinity to integer" |}] ]
          [run_call (command ecoli)]).
Proof.
  split; [reflexivity|].
  apply (infinite_total_count_is_error
           (tool_exits 0 (jtext "{'total_count': 1e999}") []) loads
           int_literal ecoli
           {| returncode := 0; stdout := jtext "{'total_count': 1e999}";
              stderr := [] |}
           {[ lit "total_count" := JFloat (S754_infinity false) ]}
           false no_effects); reflexivity.
Defined.

Lemma missing_total_count_is_zero_witness :
  loads (jtext "{'count': 3, 'reports': [1]}")
  = Returns (JDict (<[ lit "count" := JInt 3 ]>
                      {[ lit "reports" := JList [JInt 1] ]}))
  /\ query (jtext "{'count': 3, 'reports': [1]}")
     = (Returns (Some (JInt 0)),
        extend no_effects [checking ecoli] [] [run_call (command ecoli)]).
Proof.
  split; [reflexivity|].
  apply (missing_total_count_is_zero
           (tool_exits 0 (jtext "{'count': 3, 'reports': [1]}") []) loads
           int_literal ecoli
           {| returncode := 0;
              stdout := jtext "{'count': 3, 'reports': [1]}";
              stderr := [] |}
           (<[ lit "count" := JInt 3 ]> {[ lit "reports" := JList [JInt 1] ]})
           no_effects); reflexivity.
Defined.

Lemma exit_status_reflects_count_witness :
  one_positional [ecoli] = Namespace ecoli
  /\ exists w', main tool_missing loads int_literal one_positional [ecoli]
                  no_effects = (Returns 1, w').
Proof.
  split; [reflexivity|].
  destruct (exit_status_reflects_count tool_missing loads int_literal
              one_positional [ecoli] ecoli no_effects eq_refl)
    as (r & w1 & status & w2 & _ & Hmain & _ & _ & Hmissing).
  destruct (Hmissing _ eq_refl eq_refl) as [_ ->].
  exists w2. exact Hmain.
Defined.

Lemma blank_output_is_zero_witness :
  forallb isspace [0x20; 0x0A]%N = true
  /\ fst (query [0x20; 0x0A]%N) = Returns (Some (JInt 0)).
Proof.
  split; [reflexivity|].
  exact (f_equal fst
           (blank_output_is_zero (tool_exits 0 [0x20; 0x0A]%N []) loads
              int_literal ecoli
              {| returncode := 0; stdout := [0x20; 0x0A]%N; stderr := [] |}
              no_effects eq_refl eq_refl eq_refl)).
Defined.

Lemma nonzero_exit_is_error_witness :
  1 <> 0
  /\ fst (check_genome_count (tool_exits 1 [] (lit "Error: no such taxon"))
            loads int_literal ecoli no_effects) = Returns None.
Proof.
  assert (H : 1 <> 0) by discriminate.
  split; [exact H|].
  exact (f_equal fst
           (proj1 (nonzero_exit_is_error
                     (tool_exits 1 [] (lit "Error: no such taxon")) loads
                     int_literal ecoli
                     {| returncode := 1; stdout := [];
                        stderr := lit "Error: no such taxon" |}
                     no_effects eq_refl H))).
Defined.

Lemma undecodable_output_is_error_witness :
  forallb isspace (lit "not json") = false
  /\ (exists e, loads (lit "not json") = Raises e
                /\ isinstance e JSONDecodeError = true)
  /\ fst (query (lit "not json")) = Returns None.
Proof.
  split; [reflexivity|]. split; [eexists; split; reflexivity|].
  exact (f_equal fst
           (undecodable_output_is_error (tool_exits 0 (lit "not json") [])
              loads int_literal ecoli
              {| returncode := 0; stdout := lit "not json"; stderr := [] |}
              _ no_effects eq_refl eq_refl eq_refl eq_refl eq_refl)).
Defined.

Lemma non_object_document_is_error_witness :
  loads (jtext "[1, 2]") = Returns (JList [JInt 1; JInt 2])
  /\ fst (query (jtext "[1, 2]")) = Returns None.
Proof.
  split; [reflexivity|].
  refine (f_equal fst
            (non_object_document_is_error (tool_exits 0 (jtext "[1, 2]") [])
               loads int_literal ecoli
               {| returncode := 0; stdout := jtext "[1, 2]"; stderr := [] |}
               (JList [JInt 1; JInt 2]) no_effects
               eq_refl eq_refl eq_refl eq_refl _)).
  intros d. discriminate.
Defined.

(** ** More about the script *)

(** *** Standard output *)

Lemma silent_ret {A} (a : A) : silent (ret a).
Proof. intros w. reflexivity. Qed.

Lemma silent_raise {A} e : silent (@raise A e).
Proof. intros w. reflexivity. Qed.

Lemma silent_lift {A} (r : res A) : silent (lift r).
Proof. intros w. reflexivity. Qed.

Lemma silent_eprint l : silent (eprint l).
Proof. intros w. reflexivity. Qed.

Lemma silent_run subprocess_run command : silent (run subprocess_run command).
Proof. intros w. reflexivity. Qed.

Lemma silent_bind {A B} (m : prog A) (k : A -> prog B) :
  silent m -> (forall a, silent (k a)) -> silent (bind m k).
Proof.
  intros Hm Hk w. unfold bind. specialize (Hm w).
  destruct (m w) as [[a|e] w1]; simpl in *; [now rewrite Hk|exact Hm].
Qed.

(** What follows a [raise] does not run. *)
Lemma silent_bind_raise {A B} e (k : A -> prog B) : silent (bind (raise e) k).
Proof. intros w. reflexivity. Qed.

Lemma silent_if {A} (b : bool) (m1 m2 : prog A) :
  silent m1 -> silent m2 -> silent (if b then m1 else m2).
Proof. destruct b; auto. Qed.

(** A [try] is silent when its body is and when each clause is silent on
    the exceptions the body can hand it. *)
Lemma silent_try {A} (P : exn -> Prop) (body : prog A) (hs : list (handler A)) :
  silent body -> throws P body ->
  (forall e h, P e -> List.find (handles e) hs = Some h -> silent (snd h e)) ->
  silent (try_except body hs).
Proof.
  intros Hb Ht Hhs w. unfold try_except.
  specialize (Hb w). specialize (Ht w).
  destruct (body w) as [[a|e] w1]; simpl in *; [exact Hb|].
  destruct (List.find (handles e) hs) as [h|] eqn:Hf; simpl; [|exact Hb].
  rewrite (Hhs e h (Ht e w1 eq_refl) Hf w1). exact Hb.
Qed.

(** *** What can be raised *)

Lemma throws_ret {A} P (a : A) : throws P (ret a).
Proof. intros w e w' [=]. Qed.

Lemma throws_raise {A} (P : exn -> Prop) e : P e -> throws P (@raise A e).
Proof. intros He w e' w' [= <- _]. exact He. Qed.

Lemma throws_lift {A} (P : exn -> Prop) (r : res A) :
  (forall e, r = Raises e -> P e) -> throws P (lift r).
Proof. intros Hr w e w' [= -> _]. now apply Hr. Qed.

Lemma throws_eprint P l : throws P (eprint l).
Proof. intros w e w' [=]. Qed.

Lemma throws_bind {A B} P (m : prog A) (k : A -> prog B) :
  throws P m -> (forall a, throws P (k a)) -> throws P (bind m k).
Proof.
  intros Hm Hk w e w'. unfold bind. specialize (Hm w).
  destruct (m w) as [[a|e1] w1].
  - apply Hk.
  - intros [= <- _]. now apply (Hm e1 w1).
Qed.

Lemma throws_try {A} P (body : prog A) (hs : list (handler A)) :
  throws P body -> Forall (fun h => forall e, throws P (snd h e)) hs ->
  throws P (try_except body hs).
Proof.
  intros Hb Hhs w e w'. unfold try_except. specialize (Hb w).
  destruct (body w) as [[a|e1] w1]; [discriminate|].
  destruct (List.find (handles e1) hs) as [h|] eqn:Hf.
  - apply find_some in Hf as [Hin _].
    rewrite List.Forall_forall in Hhs. apply (Hhs h Hin e1).
  - intros [= <- _]. now apply (Hb e1 w1).
Qed.

Lemma throws_if {A} P (b : bool) (m1 m2 : prog A) :
  throws P m1 -> throws P m2 -> throws P (if b then m1 else m2).
Proof. destruct b; auto. Qed.

Lemma throws_anything {A} (m : prog A) : throws (fun _ => True) m.
Proof. intros w e w' _. exact I. Qed.

Lemma silent_try_all {A} (body : prog A) (hs : list (handler A)) :
  silent body -> Forall (fun h => forall e, silent (snd h e)) hs ->
  silent (try_except body hs).
Proof.
  intros Hb Hhs. apply (silent_try (fun _ => True)); auto using throws_anything.
  intros e h _ Hf. apply find_some in Hf as [Hin _].
  rewrite List.Forall_forall in Hhs. now apply Hhs.
Qed.

Ltac silent_steps :=
  repeat first
    [ apply silent_ret | apply silent_raise | apply silent_lift
    | apply silent_eprint | apply silent_run | apply silent_bind_raise
    | apply silent_bind | apply silent_if | apply silent_try_all
    | match goal with |- Forall _ _ => constructor end
    | match goal with |- forall _, _ => intro end
    | progress simpl ].

Section Streams.

Variable subprocess_run : run_args -> res CompletedProcess.
Variable json_loads : str -> res value.
Variable int_of_str : str -> res Z.
Variable parse_args : list str -> parsed.

(** The builtin [int] raises [ValueError] on a [str] that is no literal;
    all that matters here is that it raises no [KeyError]. *)
Hypothesis int_raises_no_KeyError :
  forall s e, int_of_str s = Raises e -> not_KeyError e.

Lemma throws_py_int count :
  throws not_KeyError (lift (py_int int_of_str count)).
Proof.
  apply throws_lift. intros e.
  destruct count as [|b|z|f|s|l|d]; simpl; try discriminate;
    try (intros [= <-]; reflexivity).
  - destruct f; try discriminate; intros [= <-]; reflexivity.
  - destruct (int_of_str s) as [z|e'] eqn:Hs; [discriminate|].
    intros [= <-]. exact (int_raises_no_KeyError _ _ Hs).
Qed.

(** Nothing between the lookup and the conversion raises [KeyError]. *)
Lemma throws_read_count data :
  throws not_KeyError (read_count int_of_str data).
Proof.
  unfold read_count. apply throws_bind.
  - apply throws_lift. intros e.
    destruct data; simpl; try discriminate; intros [= <-]; reflexivity.
  - intros count. apply throws_if; [apply throws_ret|].
    apply throws_bind; [apply throws_eprint|]. intros _.
    apply throws_try.
    + apply throws_bind; [apply throws_py_int|]. intros n. apply throws_ret.
    + each_clause. intros e. simpl.
      apply throws_bind; [apply throws_eprint|]. intros _. apply throws_ret.
Qed.

Lemma silent_read_count data : silent (read_count int_of_str data).
Proof. unfold read_count. silent_steps. Qed.

Lemma silent_parse_output result :
  silent (parse_output json_loads int_of_str result).
Proof.
  unfold parse_output. destruct (json_loads (stdout result)) as [data|e].
  - apply (silent_try not_KeyError);
      [apply silent_read_count | apply throws_read_count |].
    intros e h He. unfold List.find.
    destruct (handles e (except_JSONDecodeError result)).
    + intros [= <-]. simpl. silent_steps.
    + destruct (handles e (except_KeyError (Some data))) eqn:Hk;
        [|discriminate].
      unfold handles in Hk. simpl in Hk. rewrite orb_false_r in Hk.
      unfold not_KeyError in He. congruence.
  - apply silent_try_all; [apply silent_raise|].
    each_clause; intros e'; simpl; silent_steps.
Qed.

(** Standard output after a query: the announcement was added. *)
Lemma stdout_after_check species_name w :
  sys_stdout
    (snd (check_genome_count subprocess_run json_loads int_of_str
            species_name w))
  = sys_stdout w ++ [checking species_name].
Proof.
  unfold check_genome_count, bind at 1, print.
  match goal with
  | |- sys_stdout (snd (?m ?w1)) = _ => assert (Hs : silent m)
  end.
  { apply silent_try_all.
    - apply silent_bind; [apply silent_run|]. intros result.
      repeat apply silent_if; try apply silent_parse_output; silent_steps.
    - unfold except_FileNotFoundError, except_Exception.
      each_clause; intros e; simpl; silent_steps. }
  rewrite Hs. reflexivity.
Qed.

End Streams.

(** *** Standard error *)

Lemma appends_ret {A} (a : A) : appends (ret a).
Proof. intros w. exists []. simpl. now rewrite app_nil_r. Qed.

Lemma appends_raise {A} e : appends (@raise A e).
Proof. intros w. exists []. simpl. now rewrite app_nil_r. Qed.

Lemma appends_lift {A} (r : res A) : appends (lift r).
Proof. intros w. exists []. simpl. now rewrite app_nil_r. Qed.

Lemma appends_print l : appends (print l).
Proof. intros w. exists []. simpl. now rewrite app_nil_r. Qed.

Lemma appends_eprint l : appends (eprint l).
Proof. intros w. exists [l]. reflexivity. Qed.

Lemma appends_run subprocess_run command :
  appends (run subprocess_run command).
Proof. intros w. exists []. simpl. now rewrite app_nil_r. Qed.

Lemma appends_bind {A B} (m : prog A) (k : A -> prog B) :
  appends m -> (forall a, appends (k a)) -> appends (bind m k).
Proof.
  intros Hm Hk w. unfold bind. destruct (Hm w) as [ls Hls].
  destruct (m w) as [[a|e] w1]; simpl in *.
  - destruct (Hk a w1) as [ls' Hls']. exists (ls ++ ls').
    now rewrite Hls', Hls, app_assoc.
  - eauto.
Qed.

Lemma appends_if {A} (b : bool) (m1 m2 : prog A) :
  appends m1 -> appends m2 -> appends (if b then m1 else m2).
Proof. destruct b; auto. Qed.

Lemma appends_try {A} (body : prog A) (hs : list (handler A)) :
  appends body -> Forall (fun h => forall e, appends (snd h e)) hs ->
  appends (try_except body hs).
Proof.
  intros Hb Hhs w. unfold try_except. destruct (Hb w) as [ls Hls].
  destruct (body w) as [[a|e] w1]; simpl in *; [eauto|].
  destruct (List.find (handles e) hs) as [h|] eqn:Hf; simpl; [|eauto].
  apply find_some in Hf as [Hin _]. rewrite List.Forall_forall in Hhs.
  destruct (Hhs h Hin e w1) as [ls' Hls']. exists (ls ++ ls').
  now rewrite Hls', Hls, app_assoc.
Qed.

Ltac appends_steps :=
  repeat first
    [ apply appends_ret | apply appends_raise | apply appends_lift
    | apply appends_print | apply appends_eprint | apply appends_run
    | apply appends_bind | apply appends_if | apply appends_try
    | match goal with |- Forall _ _ => constructor end
    | match goal with |- appends (match ?x with _ => _ end) => destruct x end
    | match goal with |- forall _, _ => intro end
    | progress simpl ].

(** Lines added after some line was added: at least one line was added. *)
Lemma speaks_eprint_bind {B} l (k : unit -> prog B) :
  (forall a, appends (k a)) -> speaks (bind (eprint l) k).
Proof.
  intros Hk w. unfold bind, eprint.
  match goal with |- context [k tt ?w1] => destruct (Hk tt w1) as [ls Hls] end.
  exists l, ls. rewrite Hls. simpl. now rewrite <- app_assoc.
Qed.

Lemma speaks_appends {A} (m : prog A) : speaks m -> appends m.
Proof. intros Hm w. destruct (Hm w) as (l & ls & H). eauto. Qed.

Lemma speaks_diagnosed m : speaks m -> diagnosed m.
Proof. intros Hm w w' Hw. specialize (Hm w). now rewrite Hw in Hm. Qed.

Lemma diagnosed_count v : diagnosed (ret (Some v)).
Proof. intros w w' [=]. Qed.

Lemma diagnosed_raise e : diagnosed (raise e).
Proof. intros w w' [=]. Qed.

Lemma diagnosed_bind {A} (m : prog A) (k : A -> prog (option value)) :
  appends m -> (forall a, diagnosed (k a)) -> diagnosed (bind m k).
Proof.
  intros Hm Hk w w'. unfold bind. destruct (Hm w) as [ls0 Hls0].
  destruct (m w) as [[a|e] w1]; [|discriminate]. simpl in Hls0.
  intros Hka. destruct (Hk a _ _ Hka) as (l & ls & Hls).
  rewrite Hls, Hls0, <- app_assoc.
  destruct ls0 as [|l0 ls0]; simpl; eauto.
Qed.

Lemma diagnosed_if (b : bool) m1 m2 :
  diagnosed m1 -> diagnosed m2 -> diagnosed (if b then m1 else m2).
Proof. destruct b; auto. Qed.

Lemma diagnosed_try body (hs : list (handler (option value))) :
  diagnosed body -> appends body ->
  Forall (fun h => forall e, diagnosed (snd h e)) hs ->
  diagnosed (try_except body hs).
Proof.
  intros Hd Ha Hhs w w'. unfold try_except.
  specialize (Hd w). destruct (Ha w) as [ls0 Hls0].
  destruct (body w) as [[a|e] w1]; simpl in Hls0.
  - intros [= -> <-]. now apply Hd.
  - destruct (List.find (handles e) hs) as [h|] eqn:Hf; [|discriminate].
    apply find_some in Hf as [Hin _]. rewrite List.Forall_forall in Hhs.
    intros Hh. destruct (Hhs h Hin e _ _ Hh) as (l & ls & Hls).
    rewrite Hls, Hls0, <- app_assoc.
    destruct ls0 as [|l0 ls0]; simpl; eauto.
Qed.

Section Diagnostics.

Variable subprocess_run : run_args -> res CompletedProcess.
Variable json_loads : str -> res value.
Variable int_of_str : str -> res Z.

Lemma appends_read_count data : appends (read_count int_of_str data).
Proof. unfold read_count. appends_steps. Qed.

Lemma appends_parse_output result :
  appends (parse_output json_loads int_of_str result).
Proof.
  unfold parse_output, except_JSONDecodeError, except_KeyError, local.
  destruct (json_loads (stdout result)); appends_steps;
    apply appends_read_count.
Qed.

Lemma diagnosed_read_count data : diagnosed (read_count int_of_str data).
Proof.
  unfold read_count. apply diagnosed_bind; [apply appends_lift|].
  intros count. apply diagnosed_if; [apply diagnosed_count|].
  apply speaks_diagnosed, speaks_eprint_bind. appends_steps.
Qed.

Lemma diagnosed_parse_output result :
  diagnosed (parse_output json_loads int_of_str result).
Proof.
  unfold parse_output.
  destruct (json_loads (stdout result)) as [data|e]; apply diagnosed_try;
    try apply diagnosed_raise; try apply diagnosed_read_count;
    try apply appends_raise; try apply appends_read_count;
    each_clause; intros e'; simpl;
    apply speaks_diagnosed, speaks_eprint_bind; unfold local; appends_steps.
Qed.

(** X2: no failure is silent.  Whatever the tool and the decoders do, a
    query that returns the error marker has added at least one line to
    standard error, and has kept the lines that were there. *)
Theorem error_marker_is_diagnosed species_name w w' :
  check_genome_count subprocess_run json_loads int_of_str species_name w
  = (Returns None, w') ->
  exists l ls, sys_stderr w' = sys_stderr w ++ l :: ls.
Proof.
  revert w w'.
  change (diagnosed (check_genome_count subprocess_run json_loads int_of_str
                       species_name)).
  unfold check_genome_count. apply diagnosed_bind; [apply appends_print|].
  intros _. apply diagnosed_try.
  - apply diagnosed_bind; [apply appends_run|]. intros result.
    repeat apply diagnosed_if; try apply diagnosed_parse_output;
      apply speaks_diagnosed, speaks_eprint_bind; appends_steps.
  - apply appends_bind; [apply appends_run|]. intros result.
    repeat apply appends_if; try apply appends_parse_output; appends_steps.
  - unfold except_FileNotFoundError, except_Exception.
    each_clause; intros e; simpl;
      apply speaks_diagnosed, speaks_eprint_bind; appends_steps.
Qed.

End Diagnostics.

(** *** The one child process *)

Section Entry.

Variable subprocess_run : run_args -> res CompletedProcess.
Variable json_loads : str -> res value.
Variable int_of_str : str -> res Z.

(** A query spawns the tool once. *)
Lemma check_spawns_once species_name w :
  spawned (snd (check_genome_count subprocess_run json_loads int_of_str
                  species_name w))
  = spawned w ++ [run_call (command species_name)].
Proof.
  unfold check_genome_count, bind at 1, print.
  rewrite spawned_try by (unfold except_FileNotFoundError, except_Exception;
                          quiet_steps).
  unfold bind at 1, run.
  destruct (subprocess_run (run_call (command species_name))) as [result|e];
    [|reflexivity].
  match goal with
  | |- spawned (snd (?m ?w1)) = _ =>
      assert (Hq : quiet m)
        by (quiet_steps; apply quiet_parse_output);
      rewrite (Hq w1)
  end.
  reflexivity.
Qed.

End Entry.

(** *** What the result depends on *)

(** The inner [try] reads the captured standard output only. *)
Lemma parse_output_stdout json_loads int_of_str result result' :
  stdout result' = stdout result ->
  parse_output json_loads int_of_str result'
  = parse_output json_loads int_of_str result.
Proof.
  intros Hout. unfold parse_output, except_JSONDecodeError.
  now rewrite Hout.
Qed.

(** X4: when the tool exits with 0, what it wrote on its standard error is
    ignored: two runs that exit with 0 and print the same give the same
    result and the same lines, whatever their standard errors. *)
Theorem stderr_of_success_is_ignored subprocess_run subprocess_run'
    json_loads int_of_str species_name result result' w :
  subprocess_run (run_call (command species_name)) = Returns result ->
  subprocess_run' (run_call (command species_name)) = Returns result' ->
  returncode result = 0 ->
  returncode result' = 0 ->
  stdout result' = stdout result ->
  check_genome_count subprocess_run' json_loads int_of_str species_name w
  = check_genome_count subprocess_run json_loads int_of_str species_name w.
Proof.
  intros Hrun Hrun' Hrc Hrc' Hout.
  rewrite (check_completed _ _ _ _ _ w Hrun), (check_completed _ _ _ _ _ w Hrun').
  rewrite Hrc, Hrc', Hout, (parse_output_stdout _ _ _ _ Hout). reflexivity.
Qed.

(** X5: exit status 0, an output that is not blank, and [json.loads]
    raising something else than [JSONDecodeError] (a [RecursionError] on a
    deeply nested document, a plain [ValueError] on an integer literal with
    too many digits): the result is the error marker and standard error
    gets the generic line only; the raw output is not shown. *)
Theorem decoder_fault_is_unexpected subprocess_run json_loads int_of_str
    species_name result e w :
  subprocess_run (run_call (command species_name)) = Returns result ->
  returncode result = 0 ->
  forallb isspace (stdout result) = false ->
  json_loads (stdout result) = Raises e ->
  isinstance e JSONDecodeError = false ->
  isinstance e KeyError = false ->
  isinstance e FileNotFoundError = false ->
  check_genome_count subprocess_run json_loads int_of_str species_name w
  = (Returns None,
     extend w [checking species_name]
       [ [Lit "An unexpected error occurred: "; FExc e] ]
       [run_call (command species_name)]).
Proof.
  intros Hrun Hrc Hblank Hloads Hjson Hkey Hfnf.
  rewrite (check_completed _ _ _ _ _ _ Hrun), Hrc, Hblank.
  script. rewrite Hloads. unfold handles. simpl.
  rewrite !orb_false_r, Hjson, Hkey, Hfnf. simpl.
  unfold isinstance. rewrite issubclass_Exception. same_effects.
Qed.

(** [int] of a finite float drops the fraction: the magnitude of the
    result is the integer part of the magnitude [m * 2^e], and the sign is
    kept. *)
Lemma trunc_finite_toward_zero s m e :
  let z := trunc_finite s m e in
  (if s then z <= 0 else 0 <= z)
  /\ (e <= 0 ->
      Z.abs z * 2 ^ (- e) <= Z.pos m < (Z.abs z + 1) * 2 ^ (- e))
  /\ (0 <= e -> Z.abs z = Z.pos m * 2 ^ e).
Proof.
  unfold trunc_finite.
  assert (Hq : 0 <= Z.shiftl (Z.pos m) e) by (apply Z.shiftl_nonneg; lia).
  set (q := Z.shiftl (Z.pos m) e) in *.
  assert (Habs : Z.abs (if s then - q else q) = q) by (destruct s; lia).
  cbv zeta. rewrite Habs. split; [destruct s; lia|]. split.
  - intros He. assert (H2 : 0 < 2 ^ (- e)) by (apply Z.pow_pos_nonneg; lia).
    assert (Hdiv : q = Z.pos m / 2 ^ (- e)).
    { unfold q. rewrite <- (Z.opp_involutive e) at 1.
      rewrite Z.shiftl_opp_r. apply Z.shiftr_div_pow2. lia. }
    rewrite Hdiv. split.
    + rewrite Z.mul_comm. apply Z.mul_div_le. exact H2.
    + rewrite Z.mul_comm. apply Z.mul_succ_div_gt. exact H2.
  - intros He. unfold q. apply Z.shiftl_mul_pow2. exact He.
Qed.

(** X6: a [total_count] that is a finite float with a fraction is not
    rejected: after the warning the result is its integer part, rounded
    toward zero, so the result is never fractional. *)
Theorem fractional_count_is_truncated subprocess_run json_loads int_of_str
    species_name result d s m e w :
  subprocess_run (run_call (command species_name)) = Returns result ->
  returncode result = 0 ->
  forallb isspace (stdout result) = false ->
  json_loads (stdout result) = Returns (JDict d) ->
  d !! lit "total_count" = Some (JFloat (S754_finite s m e)) ->
  exists z,
    check_genome_count subprocess_run json_loads int_of_str species_name w
    = (Returns (Some (JInt z)),
       extend w [checking species_name]
         [ [Lit "Warning: 'total_count' field was not an integer. Value: ";
            FVal (JFloat (S754_finite s m e))] ]
         [run_call (command species_name)])
    /\ (if s then z <= 0 else 0 <= z)
    /\ (e <= 0 ->
        Z.abs z * 2 ^ (- e) <= Z.pos m < (Z.abs z + 1) * 2 ^ (- e))
    /\ (0 <= e -> Z.abs z = Z.pos m * 2 ^ e).
Proof.
  intros Hrun Hrc Hblank Hloads Hcount.
  exists (trunc_finite s m e). split; [|apply trunc_finite_toward_zero].
  rewrite (check_completed _ _ _ _ _ _ Hrun), Hrc, Hblank.
  script. rewrite Hloads. unfold py_get. rewrite Hcount. simpl.
  same_effects.
Qed.

(** X10: for an output that decodes to an object, and an [int] that raises
    nothing but [ValueError] on a [str], the error marker comes back in
    one case only: [total_count] is an infinite float. *)
Theorem object_error_only_for_infinity subprocess_run json_loads int_of_str
    species_name result d w :
  (forall s e, int_of_str s = Raises e -> isinstance e ValueError = true) ->
  subprocess_run (run_call (command species_name)) = Returns result ->
  returncode result = 0 ->
  forallb isspace (stdout result) = false ->
  json_loads (stdout result) = Returns (JDict d) ->
  fst (check_genome_count subprocess_run json_loads int_of_str
         species_name w) = Returns None
  <-> exists s, d !! lit "total_count" = Some (JFloat (S754_infinity s)).
Proof.
  intros Hint Hrun Hrc Hblank Hloads.
  rewrite (check_completed _ _ _ _ _ _ Hrun), Hrc, Hblank.
  script. rewrite Hloads. unfold py_get.
  destruct (d !! lit "total_count") as [count|] eqn:Hcount; simpl.
  2: { split; [discriminate|intros [s [=]]]. }
  destruct count as [|b|z|f|t|l|d']; simpl;
    try (split; [discriminate|intros [s [=]]]).
  - destruct f; simpl; try (split; [discriminate|intros [s' [=]]]).
    split; eauto.
  - unfold py_int. destruct (int_of_str t) as [z|e] eqn:Ht; simpl.
    + split; [discriminate|intros [s [=]]].
    + unfold handles. simpl. rewrite (Hint _ _ Ht). simpl.
      split; [discriminate|intros [s [=]]].
Qed.

(** *** The lemmas of this part at sample inputs *)

Lemma int_literal_raises_ValueError s e :
  int_literal s = Raises e -> exc_type e = ValueError.
Proof.
  unfold int_literal.
  destruct (List.find _ literals); [discriminate|]. now intros [= <-].
Qed.

Lemma int_literal_raises_no_KeyError s e :
  int_literal s = Raises e -> not_KeyError e.
Proof.
  intros H. apply int_literal_raises_ValueError in H.
  unfold not_KeyError, isinstance. now rewrite H.
Qed.

Lemma error_marker_is_diagnosed_witness :
  fst (check_genome_count tool_missing loads int_literal ecoli no_effects)
  = Returns None
  /\ exists l ls,
       sys_stderr (snd (check_genome_count tool_missing loads int_literal
                          ecoli no_effects)) = l :: ls.
Proof.
  split; [reflexivity|].
  exact (error_marker_is_diagnosed tool_missing loads int_literal ecoli
           no_effects _ eq_refl).
Defined.

Lemma stderr_of_success_is_ignored_witness :
  check_genome_count
    (tool_exits 0 (jtext "{'total_count': 5}") (lit "New version available"))
    loads int_literal ecoli no_effects
  = query (jtext "{'total_count': 5}").
Proof.
  apply (stderr_of_success_is_ignored
           (tool_exits 0 (jtext "{'total_count': 5}") [])
           (tool_exits 0 (jtext "{'total_count': 5}")
              (lit "New version available"))
           loads int_literal ecoli
           {| returncode := 0; stdout := jtext "{'total_count': 5}";
              stderr := [] |}
           {| returncode := 0; stdout := jtext "{'total_count': 5}";
              stderr := lit "New version available" |}
           no_effects); reflexivity.
Defined.

Lemma decoder_fault_is_unexpected_witness :
  (exists e, loads_limited deep_document = Raises e
             /\ exc_type e = RecursionError)
  /\ fst (check_genome_count (tool_exits 0 deep_document []) loads_limited
            int_literal ecoli no_effects) = Returns None.
Proof.
  split; [eexists; split; vm_compute; reflexivity|].
  refine (f_equal fst
            (decoder_fault_is_unexpected (tool_exits 0 deep_document [])
               loads_limited int_literal ecoli
               {| returncode := 0; stdout := deep_document; stderr := [] |}
               {| exc_type := RecursionError;
                  exc_str := lit "maximum recursion depth exceeded while decoding a JSON array from a unicode string" |}
               no_effects eq_refl eq_refl _ _ eq_refl eq_refl eq_refl));
    vm_compute; reflexivity.
Defined.

Lemma fractional_count_is_truncated_witness :
  exists z,
    fst (query (jtext "{'total_count': 2.5}")) = Returns (Some (JInt z))
    /\ z = 2.
Proof.
  destruct (fractional_count_is_truncated
              (tool_exits 0 (jtext "{'total_count': 2.5}") []) loads
              int_literal ecoli
              {| returncode := 0; stdout := jtext "{'total_count': 2.5}";
                 stderr := [] |}
              {[ lit "total_count" := JFloat two_and_a_half ]}
              false 5629499534213120 (-51) no_effects
              eq_refl eq_refl eq_refl eq_refl eq_refl)
    as (z & Hz & Hsign & Hbounds & _).
  exists z. split; [exact (f_equal fst Hz)|].
  specialize (Hbounds ltac:(lia)).
  change (2 ^ (- -51)) with 2251799813685248 in Hbounds. lia.
Defined.

Lemma integer_total_count_witness :
  query (jtext "{'total_count': true}")
  = (Returns (Some (JBool true)),
     extend no_effects [checking ecoli] [] [run_call (command ecoli)]).
Proof.
  apply (integer_total_count
           (tool_exits 0 (jtext "{'total_count': true}") []) loads
           int_literal ecoli
           {| returncode := 0; stdout := jtext "{'total_count': true}";
              stderr := [] |}
           {[ lit "total_count" := JBool true ]}); reflexivity.
Defined.

Lemma converted_total_count_witness :
  query (jtext "{'total_count': '5'}")
  = (Returns (Some (JInt 5)),
     extend no_effects [checking ecoli]
       [ [Lit "Warning: 'total_count' field was not an integer. Value: ";
          FVal (JStr (lit "5"))] ]
       [run_call (command ecoli)]).
Proof.
  apply (converted_total_count
           (tool_exits 0 (jtext "{'total_count': '5'}") []) loads
           int_literal ecoli
           {| returncode := 0; stdout := jtext "{'total_count': '5'}";
              stderr := [] |}
           {[ lit "total_count" := JStr (lit "5") ]}); reflexivity.
Defined.

Lemma unconvertible_total_count_witness :
  query (jtext "{'total_count': null}")
  = (Returns (Some (JInt 0)),
     extend no_effects [checking ecoli]
       [ [Lit "Warning: 'total_count' field was not an integer. Value: ";
          FVal JNull];
         [Lit "Could not convert 'total_count' to integer."] ]
       [run_call (command ecoli)]).
Proof.
  apply (unconvertible_total_count
           (tool_exits 0 (jtext "{'total_count': null}") []) loads
           int_literal ecoli
           {| returncode := 0; stdout := jtext "{'total_count': null}";
              stderr := [] |}
           {[ lit "total_count" := JNull ]} JNull no_effects
           eq_refl eq_refl eq_refl eq_refl eq_refl
           {| exc_type := TypeError;
              exc_str := lit "int() argument must be a string, a bytes-like object or a real number, not 'NoneType'" |});
    reflexivity.
Defined.

Lemma object_error_only_for_infinity_witness :
  fst (query (jtext "{'total_count': Infinity}")) = Returns None
  <-> exists s,
        ({[ lit "total_count" := JFloat (S754_infinity false) ]}
           : gmap str value) !! lit "total_count"
        = Some (JFloat (S754_infinity s)).
Proof.
  apply (object_error_only_for_infinity
           (tool_exits 0 (jtext "{'total_count': Infinity}") []) loads
           int_literal ecoli
           {| returncode := 0; stdout := jtext "{'total_count': Infinity}";
              stderr := [] |}
           {[ lit "total_count" := JFloat (S754_infinity false) ]}
           no_effects); try reflexivity.
  intros s e H. apply int_literal_raises_ValueError in H.
  unfold isinstance. now rewrite H.
Defined.

(** ** Standard output that refuses text *)

(** Two continuations that agree on what the first step returns. *)
Lemma bind_same {A B} (m : prog A) (k1 k2 : A -> prog B) w :
  (forall a w', m w = (Returns a, w') -> k1 a w' = k2 a w') ->
  bind m k1 w = bind m k2 w.
Proof.
  intros Hk. unfold bind. destruct (m w) as [[a|e] w'] eqn:Hm; auto.
Qed.

Ltac script_on :=
  unfold check_genome_count_on, try_block_on, parse_output_on, print_on;
  script.

Section Refusal.

Variable stdout_fault : line -> option exn.
Variable subprocess_run : run_args -> res CompletedProcess.
Variable json_loads : str -> res value.
Variable int_of_str : str -> res Z.
Variable parse_args : list str -> parsed.

(** The announcement refused: the exception leaves the query at once,
    before the [try] and before anything is spawned. *)
Lemma check_on_refused species_name e w :
  stdout_fault (checking species_name) = Some e ->
  check_genome_count_on stdout_fault subprocess_run json_loads int_of_str
    species_name w = (Raises e, w).
Proof.
  intros Hfault. unfold check_genome_count_on, bind at 1, print_on.
  fold (checking species_name). now rewrite Hfault.
Qed.

(** The announcement accepted: the query is the outer [try]. *)
Lemma check_on_accepted species_name w :
  stdout_fault (checking species_name) = None ->
  check_genome_count_on stdout_fault subprocess_run json_loads int_of_str
    species_name w
  = try_except
      (try_block_on stdout_fault subprocess_run json_loads int_of_str
         species_name)
      [except_FileNotFoundError; except_Exception]
      (extend w [checking species_name] [] []).
Proof.
  intros Hfault. unfold check_genome_count_on, bind at 1, print_on.
  fold (checking species_name). rewrite Hfault.
  unfold print, extend. simpl. now rewrite !app_nil_r.
Qed.



(** When [json.loads] raises, the [KeyError] clause cannot get as far as
    its print. *)
Lemma parse_output_on_decode_fault result e w :
  json_loads (stdout result) = Raises e ->
  parse_output_on stdout_fault json_loads int_of_str result w
  = parse_output json_loads int_of_str result w.
Proof.
  intros Hloads. unfold parse_output_on, parse_output. rewrite Hloads.
  unfold try_except, raise, handles. simpl.
  destruct (isinstance e JSONDecodeError); [reflexivity|].
  destruct (isinstance e KeyError); reflexivity.
Qed.

(** With an [int] that raises no [KeyError], the [KeyError] clause does not
    run on a decoded document either. *)
Lemma parse_output_on_no_KeyError result w :
  (forall s e, int_of_str s = Raises e -> not_KeyError e) ->
  parse_output_on stdout_fault json_loads int_of_str result w
  = parse_output json_loads int_of_str result w.
Proof.
  intros Hint.
  destruct (json_loads (stdout result)) as [data|e] eqn:Hloads;
    [|now apply (parse_output_on_decode_fault _ e)].
  unfold parse_output_on, parse_output. rewrite Hloads. unfold try_except.
  destruct (read_count int_of_str data w) as [[a|e] w1] eqn:Hread;
    [reflexivity|].
  pose proof (throws_read_count int_of_str Hint data _ _ _ Hread) as Hne.
  unfold not_KeyError in Hne. unfold handles. simpl. rewrite Hne. simpl.
  destruct (isinstance e JSONDecodeError); reflexivity.
Qed.

(** The query on a standard output that accepts the announcement is the
    query of the first part, as long as the inner [try] is. *)
Lemma check_on_lenient species_name w :
  stdout_fault (checking species_name) = None ->
  (forall result w',
     subprocess_run (run_call (command species_name)) = Returns result ->
     returncode result = 0 ->
     forallb isspace (stdout result) = false ->
     parse_output_on stdout_fault json_loads int_of_str result w'
     = parse_output json_loads int_of_str result w') ->
  check_genome_count_on stdout_fault subprocess_run json_loads int_of_str
    species_name w
  = check_genome_count subprocess_run json_loads int_of_str species_name w.
Proof.
  intros Hfault Hparse. rewrite (check_on_accepted _ _ Hfault).
  unfold check_genome_count, bind at 1, print.
  unfold extend, checking. simpl. rewrite !app_nil_r.
  unfold try_except.
  match goal with
  | |- match ?m1 ?w1 with _ => _ end = match ?m2 ?w1 with _ => _ end =>
      assert (Hsame : m1 w1 = m2 w1); [|now rewrite Hsame]
  end.
  unfold try_block_on. cbv zeta. apply bind_same. intros result w' Hrun.
  unfold run in Hrun.
  destruct (subprocess_run (run_call (command species_name)))
    as [result'|e] eqn:Hrun'; [|discriminate].
  injection Hrun as -> _.
  destruct (returncode result =? 0) eqn:Hrc; [|reflexivity].
  apply Z.eqb_eq in Hrc. simpl.
  destruct (is_empty (strip (stdout result))) eqn:Hblank; [reflexivity|].
  rewrite is_empty_strip in Hblank. now apply Hparse.
Qed.

(** [main] after a query that returned: the verdict is printed, if standard
    output takes it. *)
Lemma main_on_parsed argv species_name r w w1 :
  parse_args argv = Namespace species_name ->
  check_genome_count_on stdout_fault subprocess_run json_loads int_of_str
    species_name w = (Returns r, w1) ->
  main_on stdout_fault subprocess_run json_loads int_of_str parse_args argv w
  = match stdout_fault (verdict species_name r) with
    | Some e => (Raises e, w1)
    | None =>
        (Returns (match r with Some _ => 0 | None => 1 end),
         extend w1 [verdict species_name r] [] [])
    end.
Proof.
  intros Hparse Hcheck. unfold main_on. rewrite Hparse.
  unfold bind at 1. rewrite Hcheck.
  destruct r as [n|]; unfold bind, print_on, verdict;
    (match goal with |- context [stdout_fault ?l] =>
       destruct (stdout_fault l) end);
    try reflexivity; unfold print, ret, extend; simpl;
    now rewrite !app_nil_r.
Qed.

(** [main] when the query raised: nothing catches the exception. *)
Lemma main_on_raised argv species_name e w w1 :
  parse_args argv = Namespace species_name ->
  check_genome_count_on stdout_fault subprocess_run json_loads int_of_str
    species_name w = (Raises e, w1) ->
  main_on stdout_fault subprocess_run json_loads int_of_str parse_args argv w
  = (Raises e, w1).
Proof.
  intros Hparse Hcheck. unfold main_on. rewrite Hparse.
  unfold bind at 1. now rewrite Hcheck.
Qed.


(** X1: what a query does to standard output, given an [int] that raises no
    [KeyError].  If standard output refuses the announcement, the query
    raises that exception and has printed and spawned nothing.  If it takes
    the announcement, the query goes on as on a standard output that takes
    every line, and the announcement is the one line it prints there: the
    line of the [KeyError] clause that reads a missing [total_count] as 0
    assemblies is never printed. *)
Theorem stdout_is_the_announcement species_name w :
  (forall s e, int_of_str s = Raises e -> not_KeyError e) ->
  match stdout_fault (checking species_name) with
  | Some e =>
      check_genome_count_on stdout_fault subprocess_run json_loads
        int_of_str species_name w = (Raises e, w)
  | None =>
      check_genome_count_on stdout_fault subprocess_run json_loads
        int_of_str species_name w
      = check_genome_count subprocess_run json_loads int_of_str
          species_name w
      /\ sys_stdout
           (snd (check_genome_count_on stdout_fault subprocess_run
                   json_loads int_of_str species_name w))
         = sys_stdout w ++ [checking species_name]
  end.
Proof.
  intros Hint.
  destruct (stdout_fault (checking species_name)) as [e|] eqn:Hfault.
  - now apply check_on_refused.
  - assert (Hsame :
      check_genome_count_on stdout_fault subprocess_run json_loads
        int_of_str species_name w
      = check_genome_count subprocess_run json_loads int_of_str
          species_name w).
    { apply check_on_lenient; [exact Hfault|].
      intros result w' _ _ _. now apply parse_output_on_no_KeyError. }
    split; [exact Hsame|].
    rewrite Hsame. now apply stdout_after_check.
Qed.

(** X3: what a run of [main] leaves behind once the command line is
    parsed, given an [int] that raises no [KeyError].  A refused
    announcement ends the run with that exception, nothing printed and
    nothing spawned.  Otherwise the tool is spawned once and the query
    returns; then either standard output takes the verdict ("Found ..."
    with exit status 0 for a count, "Failed ..." with 1 for the error
    marker) and holds two new lines, the announcement and the verdict, or
    it refuses the verdict and the run ends with that exception. *)
Theorem main_leaves argv species_name w :
  parse_args argv = Namespace species_name ->
  (forall s e, int_of_str s = Raises e -> not_KeyError e) ->
  match stdout_fault (checking species_name) with
  | Some e =>
      main_on stdout_fault subprocess_run json_loads int_of_str parse_args
        argv w = (Raises e, w)
  | None =>
      exists r w1,
        check_genome_count subprocess_run json_loads int_of_str
          species_name w = (Returns r, w1)
        /\ sys_stdout w1 = sys_stdout w ++ [checking species_name]
        /\ spawned w1 = spawned w ++ [run_call (command species_name)]
        /\ main_on stdout_fault subprocess_run json_loads int_of_str
             parse_args argv w
           = match stdout_fault (verdict species_name r) with
             | Some e => (Raises e, w1)
             | None =>
                 (Returns (match r with Some _ => 0 | None => 1 end),
                  {| sys_stdout :=
                       sys_stdout w ++ [checking species_name;
                                        verdict species_name r];
                     sys_stderr := sys_stderr w1;
                     spawned :=
                       spawned w ++ [run_call (command species_name)] |})
             end
  end.
Proof.
  intros Hparse Hint.
  destruct (stdout_fault (checking species_name)) as [e|] eqn:Hfault.
  - apply (main_on_raised _ species_name); [exact Hparse|].
    now apply check_on_refused.
  - destruct (check_returns subprocess_run json_loads int_of_str
                species_name w) as (r & w1 & Hr).
    pose proof (stdout_after_check subprocess_run json_loads int_of_str
                  Hint species_name w) as Hout.
    pose proof (check_spawns_once subprocess_run json_loads int_of_str
                  species_name w) as Hsp.
    rewrite Hr in Hout, Hsp. simpl in Hout, Hsp.
    exists r, w1. split; [exact Hr|]. split; [exact Hout|].
    split; [exact Hsp|].
    assert (Hon :
      check_genome_count_on stdout_fault subprocess_run json_loads
        int_of_str species_name w = (Returns r, w1)).
    { rewrite <- Hr. apply check_on_lenient; [exact Hfault|].
      intros result w' _ _ _. now apply parse_output_on_no_KeyError. }
    rewrite (main_on_parsed _ _ _ _ _ Hparse Hon).
    destruct (stdout_fault (verdict species_name r)); [reflexivity|].
    unfold extend. simpl.
    now rewrite Hout, Hsp, <- !app_assoc, !app_nil_r.
Qed.

End Refusal.

(** *** A refused announcement, at sample inputs *)



Lemma stdout_is_the_announcement_witness :
  utf8_stdout (checking ecoli) = None
  /\ sys_stdout
       (snd (check_genome_count_on utf8_stdout
               (tool_exits 0 (jtext "{'count': 0}") []) loads int_literal
               ecoli no_effects)) = [checking ecoli].
Proof.
  split; [reflexivity|].
  exact (proj2 (stdout_is_the_announcement utf8_stdout
                  (tool_exits 0 (jtext "{'count': 0}") []) loads int_literal
                  ecoli no_effects int_literal_raises_no_KeyError)).
Defined.

Lemma main_leaves_witness :
  one_positional [ecoli] = Namespace ecoli
  /\ utf8_stdout (checking ecoli) = None
  /\ exists r w1,
       check_genome_count (tool_exits 0 (jtext "{'total_count': 1523}") [])
         loads int_literal ecoli no_effects = (Returns r, w1)
       /\ sys_stdout w1 = [checking ecoli]
       /\ spawned w1 = [run_call (command ecoli)]
       /\ main_on utf8_stdout
            (tool_exits 0 (jtext "{'total_count': 1523}") []) loads
            int_literal one_positional [ecoli] no_effects
          = match utf8_stdout (verdict ecoli r) with
            | Some e => (Raises e, w1)
            | None =>
                (Returns (match r with Some _ => 0 | None => 1 end),
                 {| sys_stdout := [checking ecoli; verdict ecoli r];
                    sys_stderr := sys_stderr w1;
                    spawned := [run_call (command ecoli)] |})
            end.
Proof.
  split; [reflexivity|]. split; [reflexivity|].
  exact (main_leaves utf8_stdout
           (tool_exits 0 (jtext "{'total_count': 1523}") []) loads
           int_literal one_positional [ecoli] ecoli no_effects eq_refl
           int_literal_raises_no_KeyError).
Defined.

Example ecoli_1523_on_utf8 :
  main_on utf8_stdout (tool_exits 0 (jtext "{'total_count': 1523}") [])
    loads int_literal one_positional [ecoli] no_effects
  = (Returns 0,
     {| sys_stdout := [checking ecoli; verdict ecoli (Some (JInt 1523))];
        sys_stderr := [];
        spawned := [run_call (command ecoli)] |}).
Proof. reflexivity. Qed.
